(** * GEO metadata scraper: a shallow embedding and its verified properties

    The development follows the repository's layout:
    - [Py]        : the handful of Python string and path primitives used;
    - [Soup]      : the queryable HTML tree (BeautifulSoup) and the Field
                    Extractor of [scrapers/geo_scraper.py];
    - [MINiML]    : the element tree and the Sample Parser
                    ([process_xml_file]);
    - [Frame]     : data frames as the Tabular Sink sees them;
    - [World]     : file system, web and output trace, with a small
                    state-and-exception monad;
    - [Retriever] : [FileHandler.download_and_extract_from_url];
    - [Sink]      : [utils/excel_writer.save_to_excel];
    - [Crawler]   : [scrape_geo].                                          *)

From Stdlib Require Import Ascii String ZArith Lia.
From stdpp Require Import base option list gmap strings pretty.

#[local] Set Warnings "-register-all".
Local Open Scope Z_scope.

(* ===================================================================== *)
(** ** Python primitives on strings and paths *)
(* ===================================================================== *)

Module Py.

(** A Python [str] is modelled by a Rocq [string] whose characters are the
    code points below 256. *)

(** [str.isspace] on one character (code points below 256). *)
Definition isspace (a : ascii) : bool :=
  let n := nat_of_ascii a in
  ((9 <=? n) && (n <=? 13) || (28 <=? n) && (n <=? 32)
   || (n =? 133) || (n =? 160))%nat.

Fixpoint lstrip (s : string) : string :=
  match s with
  | EmptyString => EmptyString
  | String a r => if isspace a then lstrip r else s
  end.

Definition rstrip (s : string) : string := String.rev (lstrip (String.rev s)).

(** [s.strip()] *)
Definition strip (s : string) : string := rstrip (lstrip s).

(** [str.lower] on one character: A-Z, and the upper-case letters of the
    Latin-1 block. *)
Definition lower_ascii (a : ascii) : ascii :=
  let n := nat_of_ascii a in
  if ((65 <=? n) && (n <=? 90)
      || (192 <=? n) && (n <=? 222) && negb (n =? 215))%nat
  then ascii_of_nat (n + 32) else a.

Fixpoint lower (s : string) : string :=
  match s with
  | EmptyString => EmptyString
  | String a r => String (lower_ascii a) (lower r)
  end.

(** [s.startswith(p)] *)
Definition startswith (p s : string) : bool := String.prefix p s.

(** [s.endswith(suf)]: some tail of [s] is [suf]. *)
Fixpoint endswith (suf s : string) : bool :=
  String.eqb s suf
  || match s with
     | EmptyString => false
     | String _ r => endswith suf r
     end.

Fixpoint last_char (s : string) : option ascii :=
  match s with
  | EmptyString => None
  | String a EmptyString => Some a
  | String _ r => last_char r
  end.

(** [sep.join(parts)] *)
Fixpoint join (sep : string) (parts : list string) : string :=
  match parts with
  | [] => ""
  | [p] => p
  | p :: rest => p +:+ sep +:+ join sep rest
  end.

(** [s.replace(old, new)] for a non-empty [old]: every non-overlapping
    occurrence, left to right.  [skip] counts the characters of a matched
    occurrence that are still to be dropped. *)
Fixpoint replace_go (old new : string) (skip : nat) (s : string) : string :=
  match s with
  | EmptyString => EmptyString
  | String a r =>
      match skip with
      | S k => replace_go old new k r
      | O =>
          if String.prefix old s
          then new +:+ replace_go old new (Nat.pred (String.length old)) r
          else String a (replace_go old new O r)
      end
  end.

Definition replace (old new s : string) : string := replace_go old new O s.

Fixpoint has_slash (s : string) : bool :=
  match s with
  | EmptyString => false
  | String a r => Ascii.eqb a "/" || has_slash r
  end.

(** [os.path.basename]: what follows the last slash. *)
Fixpoint basename (s : string) : string :=
  match s with
  | EmptyString => EmptyString
  | String a r =>
      if has_slash r then basename r
      else if Ascii.eqb a "/" then r else s
  end.

(** [os.path.join] of two components (POSIX). *)
Definition path_join (a b : string) : string :=
  if startswith "/" b then b
  else if String.eqb a "" || endswith "/" a then a +:+ b
  else a +:+ "/" +:+ b.

(** [s.split(sep)] for a one-character separator. *)
Fixpoint split (sep : ascii) (s : string) : list string :=
  match s with
  | EmptyString => [EmptyString]
  | String a r =>
      if Ascii.eqb a sep then EmptyString :: split sep r
      else match split sep r with
           | h :: t => String a h :: t
           | [] => [String a EmptyString]
           end
  end.

(** [s.split(sep, 1)] when [sep] occurs in [s]: what precedes and what
    follows its first occurrence. *)
Fixpoint cut (sep : ascii) (s : string) : option (string * string) :=
  match s with
  | EmptyString => None
  | String a r =>
      if Ascii.eqb a sep then Some (EmptyString, r)
      else match cut sep r with
           | Some (h, t) => Some (String a h, t)
           | None => None
           end
  end.

(** [urlparse(url).query]: between the first question mark and the
    fragment. *)
Definition url_query (url : string) : string :=
  let before_fragment :=
    match cut "#" url with Some (h, _) => h | None => url end in
  match cut "?" before_fragment with
  | Some (_, q) => q
  | None => EmptyString
  end.

(** [parse_qsl(query)]: the name/value pairs of a query string; fields
    without an equals sign or with a blank value are dropped.
    Percent-escapes and plus signs are left undecoded. *)
Definition parse_qsl (query : string) : list (string * string) :=
  omap (fun field =>
          match cut "=" field with
          | Some (name, value) =>
              if String.eqb value "" then None else Some (name, value)
          | None => None
          end)
       (split "&" query).

(** Lookup in an attribute dictionary: [d.get(key)]. *)
Fixpoint assoc {V : Type} (key : string) (l : list (string * V)) : option V :=
  match l with
  | [] => None
  | (k, v) :: rest => if String.eqb k key then Some v else assoc key rest
  end.

End Py.

(* ===================================================================== *)
(** ** Exceptions and results *)
(* ===================================================================== *)

(** The exception classes that the modelled code can meet. *)
Inductive exn : Type :=
| ConnectionError      (* requests: the transport failed *)
| HTTPError            (* raise_for_status on a 4xx/5xx answer *)
| ValueError           (* int() of a malformed header *)
| KeyError             (* tag["href"] on a tag without it *)
| AttributeError       (* method call on None *)
| ReadError            (* tarfile: not a gzip'ed tar archive *)
| ParseError           (* ElementTree / openpyxl: malformed document *)
| OSError.             (* open/read on a directory or a missing file *)

Inductive result (A : Type) : Type :=
| Ok (a : A)
| Raise (e : exn).
Arguments Ok {A} a.
Arguments Raise {A} e.

Definition raised {A} (r : result A) : bool :=
  match r with Ok _ => false | Raise _ => true end.

(* ===================================================================== *)
(** ** The queryable HTML tree and the Field Extractor *)
(* ===================================================================== *)

Module Soup.

(** A parsed page: text nodes and tags with attributes and contents. *)
Inductive PageElement : Type :=
| NavigableString (s : string)
| Tag (name : string) (attrs : list (string * string))
      (contents : list PageElement).

Definition name_is (n : string) (e : PageElement) : bool :=
  match e with
  | Tag m _ _ => String.eqb m n
  | NavigableString _ => false
  end.

Definition contents_of (e : PageElement) : list PageElement :=
  match e with
  | Tag _ _ cs => cs
  | NavigableString _ => []
  end.

Definition attr (key : string) (e : PageElement) : option string :=
  match e with
  | Tag _ attrs _ => Py.assoc key attrs
  | NavigableString _ => None
  end.

(** [tag.string]: the single text child, looked for through chains of
    single children. *)
Fixpoint string_of (e : PageElement) : option string :=
  match e with
  | NavigableString s => Some s
  | Tag _ _ [c] => string_of c
  | Tag _ _ _ => None
  end.

(** An element together with its next siblings, as the navigation
    methods see it. *)
Definition Located : Type := PageElement * list PageElement.

(** [tag.descendants]: document order, each element with its next
    siblings. *)
Fixpoint descendants (e : PageElement) : list Located :=
  match e with
  | NavigableString _ => []
  | Tag _ _ cs =>
      (fix walk (l : list PageElement) : list Located :=
         match l with
         | [] => []
         | c :: rest => (c, rest) :: descendants c ++ walk rest
         end) cs
  end.

Definition walk (l : list PageElement) : list Located :=
  (fix walk (l : list PageElement) : list Located :=
     match l with
     | [] => []
     | c :: rest => (c, rest) :: descendants c ++ walk rest
     end) l.

(** The filter of [find(name, string=label)]. *)
Definition matches (name : string) (label : option string)
    (e : PageElement) : bool :=
  name_is name e
  && match label with
     | None => true
     | Some l =>
         match string_of e with
         | Some s => String.eqb s l
         | None => false
         end
     end.

(** [soup.find(name, string=label)] *)
Definition find (name : string) (label : option string)
    (soup : PageElement) : option Located :=
  head (filter (fun le => matches name label (fst le) = true)
               (descendants soup)).

(** [tag.find_all(name)] *)
Definition find_all (name : string) (e : PageElement) : list PageElement :=
  fst <$> filter (fun le => name_is name (fst le) = true) (descendants e).

(** [element.find_next_sibling(name)] *)
Definition find_next_sibling (name : string) (le : Located)
    : option PageElement :=
  head (filter (fun e => name_is name e = true) (snd le)).

(** All text nodes below (or at) an element, in document order. *)
Fixpoint all_strings (e : PageElement) : list string :=
  match e with
  | NavigableString s => [s]
  | Tag _ _ cs => flat_map all_strings cs
  end.

(** [tag.get_text(strip=True)]: the stripped, non-empty text nodes glued
    together. *)
Definition get_text_strip (e : PageElement) : string :=
  Py.join ""
    (filter (fun s => s <> EmptyString) (Py.strip <$> all_strings e)).

(** [get_text_or_none(soup, label)] of [scrapers/geo_scraper.py]. *)
Definition get_text_or_none (soup : PageElement) (label : string)
    : result (option string) :=
  match find "td" (Some label) soup with
  | Some element =>
      match find_next_sibling "td" element with
      | Some sibling => Ok (Some (get_text_strip sibling))
      | None => Ok None
      end
  | None => Ok None
  end.

(** The body shared by [get_contributors], [get_platforms] and
    [get_samples]: the anchors of the cell next to the labelled one.
    Calling [find_all] on a missing sibling is an [AttributeError]. *)
Definition anchors_after (soup : PageElement) (label : string)
    : result (option string) :=
  match find "td" (Some label) soup with
  | Some cell =>
      match find_next_sibling "td" cell with
      | Some sibling =>
          Ok (Some (Py.join ", " (get_text_strip <$> find_all "a" sibling)))
      | None => Raise AttributeError
      end
  | None => Ok None
  end.

Definition get_contributors (soup : PageElement) : result (option string) :=
  anchors_after soup "Contributor(s)".

Definition get_platforms (soup : PageElement) : result (option string) :=
  anchors_after soup "Platforms".

Definition get_samples (soup : PageElement) : result (option string) :=
  anchors_after soup "Samples".

(** The [class] attribute holds a whitespace-separated list. *)
Definition has_class (c : string) (e : PageElement) : bool :=
  match attr "class" e with
  | Some v => bool_decide (c ∈ String.words v)
  | None => false
  end.

Definition result_href_prefix : string := "/geo/query/acc.cgi?acc=".

(** The compound [a[href^='/geo/query/acc.cgi?acc=']]. *)
Definition is_result_link (e : PageElement) : bool :=
  name_is "a" e
  && match attr "href" e with
     | Some h => Py.startswith result_href_prefix h
     | None => false
     end.

(** [soup.select(".rslt a[href^='/geo/query/acc.cgi?acc=']")]: the result
    links that have an ancestor of class [rslt], in document order.
    [inside] tells whether the element walked or one of its ancestors has
    that class. *)
Fixpoint select_below (inside : bool) (e : PageElement)
    : list PageElement :=
  match e with
  | NavigableString _ => []
  | Tag _ _ cs =>
      (fix each (l : list PageElement) : list PageElement :=
         match l with
         | [] => []
         | c :: rest =>
             (if inside && is_result_link c then [c] else [])
             ++ select_below (inside || has_class "rslt" c) c
             ++ each rest
         end) cs
  end.

Definition select_result_links (soup : PageElement) : list PageElement :=
  select_below false soup.

(** *** Presence of a label, stated on the tree itself *)

(** [Below e d]: [e] occurs strictly inside [d]. *)
Inductive Below (e : PageElement) : PageElement -> Prop :=
| Below_child n a cs : e ∈ cs -> Below e (Tag n a cs)
| Below_deeper n a cs c : c ∈ cs -> Below e c -> Below e (Tag n a cs).

(** A table cell whose string is exactly [label] occurs in the document. *)
Definition label_present (soup : PageElement) (label : string) : Prop :=
  exists e, Below e soup /\ matches "td" (Some label) e = true.

End Soup.

(* ===================================================================== *)
(** ** Python dictionaries with string keys *)
(* ===================================================================== *)

Module Dict.

(** A value is a string or [None]; a dictionary keeps its keys in
    insertion order. *)
Definition pyval : Type := option string.
Definition pydict : Type := list (string * pyval).

Definition get (k : string) (d : pydict) : option pyval := Py.assoc k d.

(** [d[k] = v]: in place when the key exists, at the end otherwise. *)
Fixpoint set (k : string) (v : pyval) (d : pydict) : pydict :=
  match d with
  | [] => [(k, v)]
  | (k', v') :: rest =>
      if String.eqb k' k then (k, v) :: rest else (k', v') :: set k v rest
  end.

(** [{**a, **b}] *)
Definition merge (a b : pydict) : pydict :=
  fold_left (fun d kv => set (fst kv) (snd kv) d) b a.

Definition keys (d : pydict) : list string := fst <$> d.

End Dict.

(* ===================================================================== *)
(** ** The structured metadata file and the Sample Parser *)
(* ===================================================================== *)

Module MINiML.

(** An ElementTree element: qualified tag, attributes, leading text and
    children. *)
Inductive Element : Type :=
| Elem (tag : string) (attrib : list (string * string))
       (text : option string) (children : list Element).

Definition tag_of (e : Element) : string :=
  match e with Elem t _ _ _ => t end.
Definition attrib_of (e : Element) : list (string * string) :=
  match e with Elem _ a _ _ => a end.
Definition text_of (e : Element) : option string :=
  match e with Elem _ _ t _ => t end.
Definition children_of (e : Element) : list Element :=
  match e with Elem _ _ _ cs => cs end.

Definition ns : string := "http://www.ncbi.nlm.nih.gov/geo/info/MINiML".

(** The qualified name that the prefixed path step [ns:local] stands
    for. *)
Definition qname (local : string) : string := "{" +:+ ns +:+ "}" +:+ local.

(** The elements strictly below [e], in document order. *)
Fixpoint below (e : Element) : list Element :=
  match e with
  | Elem _ _ _ cs =>
      (fix each (l : list Element) : list Element :=
         match l with
         | [] => []
         | c :: rest => c :: below c ++ each rest
         end) cs
  end.

(** [e.findall(".//ns:local", ns)] *)
Definition findall (local : string) (e : Element) : list Element :=
  filter (fun d => tag_of d = qname local) (below e).

(** [e.get(key, default)] *)
Definition get (key default : string) (e : Element) : string :=
  match Py.assoc key (attrib_of e) with
  | Some v => v
  | None => default
  end.

(** [characteristic.text.strip() if characteristic.text else
    "Not Available"] *)
Definition text_or_not_available (c : Element) : string :=
  match text_of c with
  | Some (String a r) => Py.strip (String a r)
  | _ => "Not Available"
  end.

(** [characteristic.get("tag", "").lower() == t] *)
Definition tagged (t : string) (c : Element) : bool :=
  String.eqb (Py.lower (get "tag" "" c)) t.

(** One turn of the inner loop over the Characteristics elements. *)
Definition note_characteristic (sample_data : Dict.pydict) (c : Element)
    : Dict.pydict :=
  if tagged "tissue" c
  then Dict.set "Tissue" (Some (text_or_not_available c)) sample_data
  else if tagged "cell line" c
  then Dict.set "Cell line" (Some (text_or_not_available c)) sample_data
  else sample_data.

(** The body of the loop over the Sample elements. *)
Definition sample_record (sample : Element) : Dict.pydict :=
  let sample_data : Dict.pydict :=
    [ ("Sample Number (ID)", Some (get "iid" "Not Available" sample));
      ("Tissue", None);
      ("Cell line", None) ] in
  fold_left note_characteristic (findall "Characteristics" sample)
            sample_data.

(** The loop of [process_xml_file] over a parsed document: the records
    are appended one by one to [samples_data]. *)
Definition samples_of_root (root : Element) : list Dict.pydict :=
  fold_left (fun samples_data sample => samples_data ++ [sample_record sample])
            (findall "Sample" root) [].

End MINiML.

(* ===================================================================== *)
(** ** Data frames *)
(* ===================================================================== *)

Module Frame.

(** A cell holds a string or is null (NaN / None / empty). *)
Definition cell : Type := option string.

(** A frame: the column labels and the rows, each row aligned with the
    labels. *)
Record DataFrame : Type := mkFrame {
  columns : list string;
  rows : list (list cell)
}.

(** [pd.DataFrame(columns=cols)] *)
Definition empty (cols : list string) : DataFrame := mkFrame cols [].

(** The cell a record contributes to a column: null when the key is
    missing and when its value is [None]. *)
Definition cell_of (d : Dict.pydict) (c : string) : cell :=
  match Dict.get c d with
  | Some (Some s) => Some s
  | _ => None
  end.

(** The row of a record under given column labels. *)
Definition record_row (cols : list string) (d : Dict.pydict) : list cell :=
  cell_of d <$> cols.

(** Labels in order of first appearance. *)
Definition add_labels (seen new : list string) : list string :=
  fold_left (fun acc c => if bool_decide (c ∈ acc) then acc else acc ++ [c])
            new seen.

(** [pd.DataFrame(data)] for a list of dictionaries: the columns are the
    keys in order of first appearance. *)
Definition of_records (data : list Dict.pydict) : DataFrame :=
  let cols := fold_left (fun acc d => add_labels acc (Dict.keys d)) data [] in
  mkFrame cols (record_row cols <$> data).

(** The cell of a row under a label: the first column so labelled. *)
Fixpoint cell_at (cols : list string) (row : list cell) (c : string) : cell :=
  match cols, row with
  | k :: cols', v :: row' => if String.eqb k c then v else cell_at cols' row' c
  | _, _ => None
  end.

(** A row re-aligned from the labels [old] to the labels [new]. *)
Definition reindex (old new : list string) (row : list cell) : list cell :=
  cell_at old row <$> new.

(** [pd.concat([a, b], ignore_index=True)]: the union of the columns,
    those of [a] first; the rows of [a], then the rows of [b]. *)
Definition concat (a b : DataFrame) : DataFrame :=
  let cols := add_labels (columns a) (columns b) in
  mkFrame cols
          ((reindex (columns a) cols <$> rows a)
           ++ (reindex (columns b) cols <$> rows b)).

(** [df[column] = None] for a column that the frame does not have. *)
Definition add_null_column (column : string) (df : DataFrame) : DataFrame :=
  mkFrame (columns df ++ [column]) ((fun r => r ++ [None]) <$> rows df).

(** [for column in cols: if column not in df.columns: df[column] = None] *)
Definition backfill (cols : list string) (df : DataFrame) : DataFrame :=
  fold_left (fun df column =>
               if bool_decide (column ∈ columns df) then df
               else add_null_column column df)
            cols df.

(** The keys of a record all label columns. *)
Definition covered (cols : list string) (d : Dict.pydict) : Prop :=
  forall k, k ∈ Dict.keys d -> k ∈ cols.

(** [holds df n records]: the rows of [df] are [n] earlier rows followed
    by the rows of [records], in order, under the columns of [df]. *)
Definition holds (df : DataFrame) (n : nat) (records : list Dict.pydict)
    : Prop :=
  exists earlier,
    length earlier = n
    /\ rows df = earlier ++ (record_row (columns df) <$> records)
    /\ Forall (covered (columns df)) records.

End Frame.

(* ===================================================================== *)
(** ** The world: files, web, output; and the monad of the scripts *)
(* ===================================================================== *)

Module World.

(** A member of a downloaded archive: its name, and the document its
    content parses to ([None]: not well-formed XML). *)
Record Member : Type := mkMember {
  member_name : string;
  member_doc : option MINiML.Element
}.

(** What a response body, or a file of raw bytes, holds. *)
Inductive Payload : Type :=
| Markup (soup : Soup.PageElement)
| TarGz (members : list Member)
| Opaque.

(** The [content-length] header: missing, not a number, or a number. *)
Inductive header : Type :=
| NoHeader
| Malformed
| Length (n : Z).

Record Response : Type := mkResponse {
  status_code : Z;
  content_length : header;
  body : Payload;
  (** whether [iter_content] delivers the whole body *)
  stream_ok : bool
}.

(** What a path of the file system holds. *)
Inductive FileData : Type :=
| Directory
| Raw (p : Payload)
| XmlFile (doc : option MINiML.Element)
| Workbook (df : Frame.DataFrame).

(** The external collaborators: the HTTP transport and the size on disk
    of a file's encoding. *)
Record Env : Type := mkEnv {
  http_head : string -> result Response;
  http_get : string -> result Response;
  getsize : FileData -> Z
}.

(** The lines printed, one constructor per [print] of the source. *)
Inductive Msg : Type :=
| MsgSearching (keyword : string)
| MsgAccession (accession : string)
| MsgHttpsUrl (url : string)
| MsgStatusSaved (accession path : string)
| MsgStatusFailed (accession : string)
| MsgStatusNoLink (accession : string)
| MsgXmlFailed (path : string) (e : exn)       (* [ERROR] Failed to process XML file *)
| MsgFullUrl (url : string)
| MsgTgzPath (path : string)
| MsgExtractedPath (path : string)
| MsgChecking (url : string)
| MsgSkipping (file_name : string) (size : Z)  (* [INFO] Skipping ... *)
| MsgDownloading (url : string)
| MsgExtracting (path : string)
| MsgExtracted (name : string)
| MsgExists (path : string)
| MsgError (url : string) (e : exn)            (* Error processing ... *)
| MsgCleaning (path : string)
| MsgSaved (path : string).                    (* [INFO] Data saved to ... *)

(** What the outside can observe of a run. *)
Inductive Event : Type :=
| Head (url : string)
| Get (url : string)
| Print (m : Msg).

Record world : Type := mkWorld {
  fs : gmap string FileData;
  trace : list Event
}.

(** A computation changes the world and returns or raises; the changes
    made before an exception stay. *)
Definition M (A : Type) : Type := world -> result A * world.

Definition ret {A} (a : A) : M A := fun w => (Ok a, w).

Definition bind {A B} (m : M A) (k : A -> M B) : M B :=
  fun w =>
    match m w with
    | (Ok a, w') => k a w'
    | (Raise e, w') => (Raise e, w')
    end.

Definition raise {A} (e : exn) : M A := fun w => (Raise e, w).

Definition lift {A} (r : result A) : M A := fun w => (r, w).

(** [try: m except Exception as e: handler(e)] *)
Definition try_except {A} (m : M A) (handler : exn -> M A) : M A :=
  fun w =>
    match m w with
    | (Ok a, w') => (Ok a, w')
    | (Raise e, w') => handler e w'
    end.

(** [try: m finally: cleanup]: the cleanup runs on every way out of [m],
    and an exception of the cleanup replaces the outcome of [m]. *)
Definition try_finally {A} (m : M A) (cleanup : M unit) : M A :=
  fun w =>
    match m w with
    | (r, w') =>
        match cleanup w' with
        | (Ok _, w'') => (r, w'')
        | (Raise e, w'') => (Raise e, w'')
        end
    end.

Declare Scope world_scope.
Delimit Scope world_scope with world.
Notation "x <- m ;; k" := (bind m (fun x => k))
  (at level 100, m at next level, right associativity) : world_scope.
Notation "m ;;; k" := (bind m (fun _ => k))
  (at level 100, right associativity) : world_scope.

Local Open Scope world_scope.

(** [for x in l: acc = body(x, acc)] *)
Fixpoint for_each {A S} (l : list A) (body : A -> S -> M S) (acc : S) : M S :=
  match l with
  | [] => ret acc
  | x :: rest => acc' <- body x acc ;; for_each rest body acc'
  end.

Definition emit (e : Event) : M unit :=
  fun w => (Ok tt, mkWorld (fs w) (trace w ++ [e])).

Definition print (m : Msg) : M unit := emit (Print m).

Definition read_fs : M (gmap string FileData) := fun w => (Ok (fs w), w).

Definition write_fs (f : gmap string FileData -> gmap string FileData)
    : M unit :=
  fun w => (Ok tt, mkWorld (f (fs w)) (trace w)).

Definition exists_in (files : gmap string FileData) (path : string) : bool :=
  match files !! path with
  | Some _ => true
  | None => false
  end.

Definition isfile_in (files : gmap string FileData) (path : string) : bool :=
  match files !! path with
  | Some Directory | None => false
  | Some _ => true
  end.

(** [os.path.exists] *)
Definition path_exists (path : string) : M bool :=
  files <- read_fs ;; ret (exists_in files path).

(** [os.path.isfile] *)
Definition path_isfile (path : string) : M bool :=
  files <- read_fs ;; ret (isfile_in files path).

(** [os.remove] *)
Definition os_remove (path : string) : M unit :=
  files <- read_fs ;;
  match files !! path with
  | Some Directory | None => raise OSError
  | Some _ => write_fs (delete path)
  end.

(** [os.makedirs(path, exist_ok=True)] *)
Definition makedirs (path : string) : M unit :=
  files <- read_fs ;;
  match files !! path with
  | None => write_fs (insert path Directory)
  | Some Directory => ret tt
  | Some _ => raise OSError
  end.

(** Creating or replacing the file at [path]; a directory is in the
    way.  Parent directories are not tracked. *)
Definition write_file (path : string) (d : FileData) : M unit :=
  files <- read_fs ;;
  match files !! path with
  | Some Directory => raise OSError
  | _ => write_fs (insert path d)
  end.

(** [df.to_excel(path)].  The spreadsheet encoder is a black box: the
    file holds the frame, and [read_excel] gives it back. *)
Definition to_excel (df : Frame.DataFrame) (path : string) : M unit :=
  write_file path (Workbook df).

(** [pd.read_excel(path)] *)
Definition read_excel (path : string) : M Frame.DataFrame :=
  files <- read_fs ;;
  match files !! path with
  | Some (Workbook df) => ret df
  | Some Directory | None => raise OSError
  | Some _ => raise ParseError
  end.

(** [ET.parse(path).getroot()] *)
Definition et_parse (path : string) : M MINiML.Element :=
  files <- read_fs ;;
  match files !! path with
  | Some (XmlFile (Some root)) => ret root
  | Some Directory | None => raise OSError
  | Some _ => raise ParseError
  end.

(** [tarfile.open(path, "r:gz").getmembers()] *)
Definition tar_members (path : string) : M (list Member) :=
  files <- read_fs ;;
  match files !! path with
  | Some (Raw (TarGz members)) => ret members
  | Some Directory | None => raise OSError
  | Some _ => raise ReadError
  end.

(** [response.raise_for_status()] *)
Definition raise_for_status (r : Response) : M unit :=
  if (400 <=? status_code r) && (status_code r <? 600)
  then raise HTTPError else ret tt.

(** [int(response.headers.get('content-length', 0))] *)
Definition advertised_size (r : Response) : result Z :=
  match content_length r with
  | NoHeader => Ok 0
  | Malformed => Raise ValueError
  | Length n => Ok n
  end.

Definition content_length_int (r : Response) : M Z :=
  lift (advertised_size r).

(** [BeautifulSoup(page.content, "html.parser")]: the parser never
    fails; what is not markup parses to an empty document. *)
Definition soup_of (r : Response) : Soup.PageElement :=
  match body r with
  | Markup soup => soup
  | _ => Soup.Tag "[document]" [] []
  end.

(** [tag["href"]] *)
Definition item (key : string) (e : Soup.PageElement) : M string :=
  match Soup.attr key e with
  | Some v => ret v
  | None => raise KeyError
  end.

(** [steady path w w']: from [w] to [w'] the file at [path] has not
    changed, and the trace has only grown. *)
Definition steady (path : string) (w w' : world) : Prop :=
  fs w' !! path = fs w !! path
  /\ exists events, trace w' = trace w ++ events.

(** [grows w w']: the trace of [w'] continues that of [w]. *)
Definition grows (w w' : world) : Prop :=
  exists events, trace w' = trace w ++ events.

(** A computation that leaves the file at [path] alone. *)
Definition keeps (path : string) {A} (m : M A) : Prop :=
  forall w r w', m w = (r, w') -> steady path w w'.

Section WithEnv.
Variable env : Env.

(** [requests.head(url)] *)
Definition requests_head (url : string) : M Response :=
  emit (Head url) ;;; lift (http_head env url).

(** [requests.get(url)] *)
Definition requests_get (url : string) : M Response :=
  emit (Get url) ;;; lift (http_get env url).

(** [os.path.getsize] *)
Definition os_getsize (path : string) : M Z :=
  files <- read_fs ;;
  match files !! path with
  | Some d => ret (getsize env d)
  | None => raise OSError
  end.

End WithEnv.

End World.

(* ===================================================================== *)
(** ** The Archive Retriever ([utils/file_handler.py]) *)
(* ===================================================================== *)

Module Retriever.
Import World.
Local Open Scope world_scope.

Record FileHandler : Type := mkFileHandler {
  output_dir : string;
  xml_dir : string;
  excel_file : string;
  handler_columns : list string
}.

Definition default_columns : list string :=
  [ "Dataset URL"; "Keyword"; "Title"; "Summary"; "Experiment type";
    "Overall design"; "Contributor(s)"; "Citation(s)"; "Submission date";
    "Last update date"; "Contact name"; "E-mail(s)"; "Organization name";
    "Department"; "Street address"; "City"; "State/province";
    "ZIP/Postal code"; "Country"; "Platforms"; "Samples" ].

(** The ceiling on the advertised size of an archive: [30 * 1024 * 1024]. *)
Definition size_ceiling : Z := 30 * 1024 * 1024.

(** [FileHandler.__init__] *)
Definition init (dir : string) : M FileHandler :=
  let self :=
    mkFileHandler dir (Py.path_join dir "xml")
                  (Py.path_join dir "final_result.xlsx") default_columns in
  makedirs (output_dir self) ;;;
  makedirs (xml_dir self) ;;;
  present <- path_exists (excel_file self) ;;
  (if present then ret tt
   else to_excel (Frame.empty (handler_columns self)) (excel_file self)) ;;;
  ret self.

(** The [with open(tgz_file_path, "wb")] block: the file is created (or
    emptied), then the chunks of the body are written; the stream may
    break on the way. *)
Definition save_body (path : string) (response : Response) : M unit :=
  write_file path (Raw Opaque) ;;;
  if stream_ok response then write_file path (Raw (body response))
  else raise ConnectionError.

(** The loop over [tar.getmembers()]. *)
Fixpoint extract_members (self : FileHandler) (extracted_file_path : string)
    (members : list Member) : M (option string) :=
  match members with
  | [] => ret None
  | member :: rest =>
      if Py.endswith ".xml" (member_name member) then
        let name := Py.basename (member_name member) in
        let extracted_path := Py.path_join (xml_dir self) name in
        present <- path_exists extracted_path ;;
        (if present then print (MsgExists extracted_path)
         else write_file extracted_path (XmlFile (member_doc member)) ;;;
              print (MsgExtracted name)) ;;;
        ret (Some extracted_file_path)
      else extract_members self extracted_file_path rest
  end.

Section WithEnv.
Variable env : Env.

(** The body of the [try] block. *)
Definition fetch_and_extract (self : FileHandler)
    (file_name full_url tgz_file_path extracted_file_path : string)
    : M (option string) :=
  print (MsgChecking full_url) ;;;
  response <- requests_head env full_url ;;
  raise_for_status response ;;;
  file_size <- content_length_int response ;;
  if file_size >? size_ceiling then
    print (MsgSkipping file_name file_size) ;;;
    ret None
  else
    print (MsgDownloading full_url) ;;;
    response <- requests_get env full_url ;;
    raise_for_status response ;;;
    total_size <- content_length_int response ;;
    save_body tgz_file_path response ;;;
    print (MsgExtracting tgz_file_path) ;;;
    members <- tar_members tgz_file_path ;;
    extract_members self extracted_file_path members.

(** The [finally] block. *)
Definition clean_up (tgz_file_path : string) : M unit :=
  print (MsgCleaning tgz_file_path) ;;;
  present <- path_exists tgz_file_path ;;
  regular <- path_isfile tgz_file_path ;;
  if present && regular then os_remove tgz_file_path else ret tt.

(** [FileHandler.download_and_extract_from_url] *)
Definition download_and_extract_from_url (self : FileHandler)
    (base_url accession_number : string) : M (option string) :=
  let file_name := accession_number +:+ "_family.xml.tgz" in
  let full_url := base_url +:+ file_name in
  let tgz_file_path := Py.path_join (output_dir self) file_name in
  let extracted_file_path :=
    Py.path_join (xml_dir self) (accession_number +:+ "_family.xml") in
  print (MsgFullUrl full_url) ;;;
  print (MsgTgzPath tgz_file_path) ;;;
  print (MsgExtractedPath extracted_file_path) ;;;
  try_finally
    (try_except
       (fetch_and_extract self file_name full_url tgz_file_path
                          extracted_file_path)
       (fun e => print (MsgError full_url e) ;;; ret None))
    (clean_up tgz_file_path).

End WithEnv.

(** The path of the scratch archive of an accession. *)
Definition tgz_path (self : FileHandler) (accession_number : string)
    : string :=
  Py.path_join (output_dir self) (accession_number +:+ "_family.xml.tgz").

Definition archive_url (base_url accession_number : string) : string :=
  base_url +:+ accession_number +:+ "_family.xml.tgz".



(** The path the Retriever returns on success. *)
Definition expected_path (self : FileHandler) (accession_number : string)
    : string :=
  Py.path_join (xml_dir self) (accession_number +:+ "_family.xml").



End Retriever.

(* ===================================================================== *)
(** ** The Tabular Sink ([utils/excel_writer.py]) *)
(* ===================================================================== *)

Module Sink.
Import World.
Local Open Scope world_scope.

(** The declared column order. *)
Definition columns : list string :=
  [ "Dataset URL"; "Title"; "Summary"; "Experiment type"; "Overall design";
    "Contributor(s)"; "Submission date"; "Last update date"; "Contact name";
    "Organization name"; "Street address"; "City"; "ZIP/Postal code";
    "Country"; "Platforms"; "Samples"; "Accession Number";
    "Sample Number (ID)"; "Organism"; "Tissue"; "Cell Type" ].

(** [50 * 1024 * 1024] *)
Definition threshold : Z := 50 * 1024 * 1024.

Definition default_base : string := "data/final_result".

(** [f"{base_output_path}_{file_index}.xlsx"] *)
Definition output_file (base_output_path : string) (file_index : nat)
    : string :=
  base_output_path +:+ "_" +:+ pretty file_index +:+ ".xlsx".

Section WithEnv.
Variable env : Env.

(** The condition of the [while] loop:
    [os.path.exists(f) and os.path.getsize(f) > 50 * 1024 * 1024]. *)
Definition over_threshold (files : gmap string FileData) (path : string)
    : bool :=
  match files !! path with
  | Some d => getsize env d >? threshold
  | None => false
  end.

(** The [while] loop, started at [file_index].  Every turn finds one
    more file of the file system, so [fuel] equal to the number of files
    is never used up before the loop ends ([scan_enough_fuel]). *)
Fixpoint scan (files : gmap string FileData) (base_output_path : string)
    (fuel : nat) (file_index : nat) : nat :=
  match fuel with
  | O => file_index
  | S fuel' =>
      if over_threshold files (output_file base_output_path file_index)
      then scan files base_output_path fuel' (S file_index)
      else file_index
  end.

(** The index the loop stops at in a given file system. *)
Definition target_index (files : gmap string FileData)
    (base_output_path : string) : nat :=
  scan files base_output_path (size files) 1.

(** The frame a flush writes, from the frame it read. *)
Definition merged (df : Frame.DataFrame) (data : list Dict.pydict)
    : Frame.DataFrame :=
  Frame.backfill columns (Frame.concat df (Frame.of_records data)).

(** [save_to_excel(data, base_output_path)] *)
Definition save_to_excel (data : list Dict.pydict)
    (base_output_path : string) : M unit :=
  files <- read_fs ;;
  let output_file :=
    output_file base_output_path (target_index files base_output_path) in
  present <- path_exists output_file ;;
  (if present then ret tt
   else to_excel (Frame.empty columns) output_file) ;;;
  df <- read_excel output_file ;;
  let new_data_df := Frame.of_records data in
  let df := Frame.concat df new_data_df in
  let df := Frame.backfill columns df in
  to_excel df output_file ;;;
  print (MsgSaved output_file).

End WithEnv.

End Sink.

(* ===================================================================== *)
(** ** The Search Crawler ([scrapers/geo_scraper.py]) *)
(* ===================================================================== *)

Module Crawler.
Import World.
Local Open Scope world_scope.

(** [config.GEO_SEARCH_URLS] *)
Definition GEO_SEARCH_URLS : list (string * string) :=
  [ ("single-cell",
     "http://www.ncbi.nlm.nih.gov/gds?term=(single-cell)%20AND%20homo%20sapiens[Organism]");
    ("metastatic cancer",
     "http://www.ncbi.nlm.nih.gov/gds?term=(metastatic%20cancer)%20AND%20homo%20sapiens[Organism]");
    ("tumor microenvironment",
     "http://www.ncbi.nlm.nih.gov/gds?term=(tumor%20microenvironment)%20AND%20homo%20sapiens[Organism]") ].

Definition miniml_label : string := "MINiML formatted family file(s)".

(** [parse_qs(urlparse(url).query).get("acc", ["Unknown"])[0]] *)
Definition accession_of_url (url : string) : string :=
  match Py.assoc "acc" (Py.parse_qsl (Py.url_query url)) with
  | Some v => v
  | None => "Unknown"
  end.

(** The loop [for sample in samples_data: results.append({**base_data,
    **sample})]. *)
Definition join_rows (base_data : Dict.pydict)
    (samples_data : list Dict.pydict) (results : list Dict.pydict)
    : list Dict.pydict :=
  fold_left (fun results sample => results ++ [Dict.merge base_data sample])
            samples_data results.

(** The dictionary [base_data]. *)
Definition base_data_of (keyword accession_number : string)
    (result_soup : Soup.PageElement) (xml_file_url : string)
    (xml_file_path : option string) : result Dict.pydict :=
  let field label k :=
    match Soup.get_text_or_none result_soup label with
    | Ok v => k v
    | Raise e => Raise e
    end in
  let anchors (r : result (option string)) k :=
    match r with
    | Ok v => k v
    | Raise e => Raise e
    end in
  field "Title" (fun title =>
  field "Status" (fun status =>
  field "Organism" (fun organism =>
  field "Experiment type" (fun experiment_type =>
  field "Summary" (fun summary =>
  field "Overall design" (fun overall_design =>
  anchors (Soup.get_contributors result_soup) (fun contributors =>
  field "Submission date" (fun submission_date =>
  field "Last update date" (fun last_update_date =>
  field "Contact name" (fun contact_name =>
  field "Organization name" (fun organization_name =>
  field "Street address" (fun street_address =>
  field "City" (fun city =>
  field "ZIP/Postal code" (fun zip =>
  field "Country" (fun country =>
  anchors (Soup.get_platforms result_soup) (fun platforms =>
  Ok [ ("Keyword", Some keyword);
       ("Accession Number", Some accession_number);
       ("Title", title);
       ("Status", status);
       ("Organism", organism);
       ("Experiment type", experiment_type);
       ("Summary", summary);
       ("Overall design", overall_design);
       ("Contributor(s)", contributors);
       ("Submission date", submission_date);
       ("Last update date", last_update_date);
       ("Contact name", contact_name);
       ("Organization name", organization_name);
       ("Street address", street_address);
       ("City", city);
       ("ZIP/Postal code", zip);
       ("Country", country);
       ("Platforms", platforms);
       ("XML File URL", Some xml_file_url);
       ("XML File Path", xml_file_path) ])))))))))))))))).

(** [process_xml_file]: whatever goes wrong with the file is reported
    and the samples gathered so far (none) are returned. *)
Definition process_xml_file (xml_file_path : string)
    : M (list Dict.pydict) :=
  try_except
    (root <- et_parse xml_file_path ;;
     ret (MINiML.samples_of_root root))
    (fun e => print (MsgXmlFailed xml_file_path e) ;;; ret []).

Section WithEnv.
Variable env : Env.

(** The first half of the body of the loop over the result links: the
    detail page is visited, the archive fetched and parsed, and
    [base_data] built.  It yields [base_data] and [samples_data]. *)
Definition gather (file_handler : Retriever.FileHandler)
    (keyword : string) (link : Soup.PageElement)
    : M (Dict.pydict * list Dict.pydict) :=
  href <- item "href" link ;;
  let result_page_url := "https://www.ncbi.nlm.nih.gov" +:+ href in
  let accession_number := accession_of_url result_page_url in
  print (MsgAccession accession_number) ;;;
  result_page <- requests_get env result_page_url ;;
  let result_soup := soup_of result_page in
  found <-
    match Soup.find "a" (Some miniml_label) result_soup with
    | Some miniml_link =>
        link_href <- item "href" (fst miniml_link) ;;
        let base_url := Py.replace "ftp://" "https://" link_href in
        let xml_file_url := base_url +:+ accession_number +:+ "_family.xml.tgz" in
        print (MsgHttpsUrl xml_file_url) ;;;
        xml_file_path <-
          Retriever.download_and_extract_from_url env file_handler base_url
                                                  accession_number ;;
        match xml_file_path with
        | Some path =>
            print (MsgStatusSaved accession_number path) ;;;
            samples_data <- process_xml_file path ;;
            ret (xml_file_url, xml_file_path, samples_data)
        | None =>
            print (MsgStatusFailed accession_number) ;;;
            ret (xml_file_url, xml_file_path, [])
        end
    | None =>
        print (MsgStatusNoLink accession_number) ;;;
        ret ("Not Found", Some "Failed", [])
    end ;;
  base_data <-
    lift (base_data_of keyword accession_number result_soup
                       (fst (fst found)) (snd (fst found))) ;;
  ret (base_data, snd found).

(** The body of the loop over the result links. *)
Definition visit (file_handler : Retriever.FileHandler) (keyword : string)
    (link : Soup.PageElement) (results : list Dict.pydict)
    : M (list Dict.pydict) :=
  gathered <- gather file_handler keyword link ;;
  let results := join_rows (fst gathered) (snd gathered) results in
  Sink.save_to_excel env results Sink.default_base ;;;
  ret results.

(** The body of the loop over the configured searches. *)
Definition search (file_handler : Retriever.FileHandler)
    (query : string * string) (results : list Dict.pydict)
    : M (list Dict.pydict) :=
  print (MsgSearching (fst query)) ;;;
  page <- requests_get env (snd query) ;;
  let soup := soup_of page in
  for_each (Soup.select_result_links soup)
           (visit file_handler (fst query)) results.

(** [scrape_geo], over a given configuration. *)
Definition scrape (searches : list (string * string))
    : M (list Dict.pydict) :=
  file_handler <- Retriever.init "data" ;;
  for_each searches (search file_handler) [].

(** [scrape_geo()] *)
Definition scrape_geo : M (list Dict.pydict) := scrape GEO_SEARCH_URLS.

End WithEnv.



(** The first output file of a run. *)
Definition first_output : string := Sink.output_file Sink.default_base 1.





End Crawler.

(* ===================================================================== *)
(** ** Further notions used to state properties *)
(* ===================================================================== *)

Module Outcome.
Import World.

(** A result that carries no path: [None], or an exception. *)
Definition no_path (r : result (option string)) : Prop :=
  r = Ok None \/ exists e, r = Raise e.

(** [survives path w w']: a file that was at [path] is still there,
    with the same content. *)
Definition survives (path : string) (w w' : world) : Prop :=
  forall d, fs w !! path = Some d -> fs w' !! path = Some d.

(** [quiet_unless path expected m]: the computation either returns
    [expected] and has not replaced a file at [path], or carries no
    path and leaves [path] as it was. *)
Definition quiet_unless (path expected : string) (m : M (option string))
    : Prop :=
  forall w r w',
    m w = (r, w') ->
    grows w w'
    /\ ((r = Ok (Some expected) /\ survives path w w')
        \/ (no_path r /\ fs w' !! path = fs w !! path)).

(** What the probe of [requests.head], [raise_for_status] and the
    reading of the advertised size give together. *)
Definition probed_size (env : Env) (url : string) : result Z :=
  match http_head env url with
  | Raise e => Raise e
  | Ok response =>
      if (400 <=? status_code response) && (status_code response <? 600)
      then Raise HTTPError
      else advertised_size response
  end.

(** What a failed probe prints and asks of the web. *)
Definition failed_probe_events (self : Retriever.FileHandler)
    (base_url accession_number : string) (e : exn) : list Event :=
  let url := Retriever.archive_url base_url accession_number in
  [ Print (MsgFullUrl url);
    Print (MsgTgzPath (Retriever.tgz_path self accession_number));
    Print (MsgExtractedPath (Retriever.expected_path self accession_number));
    Print (MsgChecking url);
    Head url;
    Print (MsgError url e);
    Print (MsgCleaning (Retriever.tgz_path self accession_number)) ].

(** The keys of [base_data], in the order of the dictionary display. *)
Definition base_keys : list string :=
  [ "Keyword"; "Accession Number"; "Title"; "Status"; "Organism";
    "Experiment type"; "Summary"; "Overall design"; "Contributor(s)";
    "Submission date"; "Last update date"; "Contact name";
    "Organization name"; "Street address"; "City"; "ZIP/Postal code";
    "Country"; "Platforms"; "XML File URL"; "XML File Path" ].

(** The keys of a row [{**base_data, **sample}]. *)
Definition row_keys : list string :=
  base_keys ++ ["Sample Number (ID)"; "Tissue"; "Cell line"].

(** The header of a spreadsheet that holds rows of the crawler: the
    declared columns, then the keys that are not declared, in the order
    of the rows. *)
Definition output_columns : list string :=
  Sink.columns
  ++ ["Keyword"; "Status"; "XML File URL"; "XML File Path"; "Cell line"].



End Outcome.

(* ===================================================================== *)
(** ** Concrete scenarios *)
(* ===================================================================== *)

Module Scenario.
Import World.

Definition td (s : string) : Soup.PageElement :=
  Soup.Tag "td" [] [Soup.NavigableString s].

(** A detail page with a title and a summary, and no download link. *)
Definition detail_page : Soup.PageElement :=
  Soup.Tag "[document]" []
    [ Soup.Tag "table" []
        [ Soup.Tag "tr" [] [td "Title"; td "T"];
          Soup.Tag "tr" [] [td "Summary"; td "S"] ] ].

(** A document with three samples; the second has no tissue. *)
Definition characteristics (tag text : string) : MINiML.Element :=
  MINiML.Elem (MINiML.qname "Characteristics") [("tag", tag)] (Some text) [].

Definition sample (iid : string) (cs : list MINiML.Element)
    : MINiML.Element :=
  MINiML.Elem (MINiML.qname "Sample") [("iid", iid)] None
    [ MINiML.Elem (MINiML.qname "Channel") [] None cs ].

Definition family : MINiML.Element :=
  MINiML.Elem (MINiML.qname "MINiML") [] None
    [ sample "GSM1" [characteristics "Tissue" " breast "];
      sample "GSM2" [characteristics "cell line" "MCF7"];
      sample "GSM3" [characteristics "tissue" ""] ].

(** The handler that [scrape_geo] creates. *)
Definition handler : Retriever.FileHandler :=
  Retriever.mkFileHandler "data" "data/xml" "data/final_result.xlsx"
                          Retriever.default_columns.

(** An archive of 1000 bytes with two XML members and a table. *)
Definition archive : list Member :=
  [ mkMember "GSE1/GSE1-tbl-1.txt" None;
    mkMember "GSE1/GSE1_family.xml" (Some family);
    mkMember "GSE1/notes.xml" None ].

Definition archive_env : Env :=
  mkEnv (fun _ => Ok (mkResponse 200 (Length 1000) Opaque true))
        (fun _ => Ok (mkResponse 200 (Length 1000) (TarGz archive) true))
        (fun _ => 0).

Definition empty_world : world := mkWorld ∅ [].

(** A world that holds the extracted family file. *)
Definition family_path : string := "data/xml/GSE1_family.xml".

Definition family_world : world :=
  mkWorld {[ family_path := XmlFile (Some family) ]} [].



(** An encoder that spends one megabyte on every row. *)
Definition row_cost_env : Env :=
  mkEnv (fun _ => Raise ConnectionError) (fun _ => Raise ConnectionError)
        (fun d => match d with
                  | Workbook df => 1024 * 1024 * Z.of_nat (length (Frame.rows df))
                  | _ => 0
                  end).

(** Fifty-one rows with a title only. *)
Definition many_rows : list Dict.pydict :=
  replicate 51 [("Title", Some "T")].

(** A search page with one result, which links to accession GSE123. *)
Definition listing_page : Soup.PageElement :=
  Soup.Tag "[document]" []
    [ Soup.Tag "div" [("class", "rprt rslt")]
        [ Soup.Tag "p" [("class", "title")]
            [ Soup.Tag "a" [("href", "/geo/query/acc.cgi?acc=GSE123")]
                [Soup.NavigableString "A data set"] ] ] ].

Definition page (soup : Soup.PageElement) : result Response :=
  Ok (mkResponse 200 NoHeader (Markup soup) true).

(** The web of the end-to-end scenario: the first search lists GSE123,
    whose detail page has no download link; the other searches list
    nothing. *)
Definition no_link_env : Env :=
  mkEnv (fun _ => Raise ConnectionError)
        (fun url =>
           if String.eqb url "https://www.ncbi.nlm.nih.gov/geo/query/acc.cgi?acc=GSE123"
           then page detail_page
           else if String.eqb url (snd (hd ("", "") Crawler.GEO_SEARCH_URLS))
           then page listing_page
           else page (Soup.Tag "[document]" [] []))
        (fun _ => 0).

(** A web that cannot be reached. *)
Definition down_env : Env :=
  mkEnv (fun _ => Raise ConnectionError) (fun _ => Raise ConnectionError)
        (fun _ => 0).

(** A run with two accessions that both have samples: the first search
    lists GSE1 and GSE2; each detail page links to its archive; the
    archive of GSE1 holds [family] (three samples), that of GSE2 a
    document with one sample. *)
Definition result_link (accession : string) : Soup.PageElement :=
  Soup.Tag "a" [("href", "/geo/query/acc.cgi?acc=" +:+ accession)]
           [Soup.NavigableString accession].

Definition two_results_page : Soup.PageElement :=
  Soup.Tag "[document]" []
    [ Soup.Tag "div" [("class", "rslt")] [result_link "GSE1"];
      Soup.Tag "div" [("class", "rslt")] [result_link "GSE2"] ].

Definition detail_with_link (accession : string) : Soup.PageElement :=
  Soup.Tag "[document]" []
    [ Soup.Tag "table" []
        [ Soup.Tag "tr" [] [td "Title"; td ("Series " +:+ accession)];
          Soup.Tag "tr" []
            [ td "Download family";
              Soup.Tag "td" []
                [ Soup.Tag "a"
                    [("href", "ftp://ftp.ncbi.nlm.nih.gov/geo/series/"
                              +:+ accession +:+ "/miniml/")]
                    [Soup.NavigableString Crawler.miniml_label] ] ] ] ].

Definition small_family : MINiML.Element :=
  MINiML.Elem (MINiML.qname "MINiML") [] None
    [ sample "GSM9" [characteristics "tissue" "lung"] ].

Definition tgz_of (accession : string) (doc : MINiML.Element)
    : result Response :=
  Ok (mkResponse 200 (Length 1000)
        (TarGz [mkMember (accession +:+ "_family.xml") (Some doc)]) true).

Definition two_accessions_env : Env :=
  mkEnv (fun _ => Ok (mkResponse 200 (Length 1000) Opaque true))
        (fun url =>
           if Py.endswith "GSE1_family.xml.tgz" url then tgz_of "GSE1" family
           else if Py.endswith "GSE2_family.xml.tgz" url
           then tgz_of "GSE2" small_family
           else if Py.endswith "acc=GSE1" url then page (detail_with_link "GSE1")
           else if Py.endswith "acc=GSE2" url then page (detail_with_link "GSE2")
           else if String.eqb url (snd (hd ("", "") Crawler.GEO_SEARCH_URLS))
           then page two_results_page
           else page (Soup.Tag "[document]" [] []))
        (fun _ => 0).

(** The column of a frame under a label. *)
Definition column (label : string) (df : Frame.DataFrame) : list Frame.cell :=
  (fun row => Frame.cell_at (Frame.columns df) row label) <$> Frame.rows df.

Definition ftp_base : string := "https://ftp.ncbi.nlm.nih.gov/geo/series/GSE1/miniml/".

End Scenario.
(* ===================================================================== *)
(** * Properties *)
(* ===================================================================== *)

(** ** Strings and paths *)

Module PyFacts.
Import Py.

Lemma append_cons x (a b : string) : String x a +:+ b = String x (a +:+ b).
Proof. reflexivity. Qed.

Lemma append_nil_l (b : string) : "" +:+ b = b.
Proof. reflexivity. Qed.

Lemma append_nil_r (s : string) : s +:+ "" = s.
Proof.
  induction s as [|a s IH]; [done |]. by rewrite append_cons, IH.
Qed.

Lemma append_assoc (a b c : string) : (a +:+ b) +:+ c = a +:+ b +:+ c.
Proof.
  induction a as [|x a IH]; [done |]. by rewrite !append_cons, IH.
Qed.

Lemma last_char_cons a s :
  s <> EmptyString -> last_char (String a s) = last_char s.
Proof. destruct s; [done | reflexivity]. Qed.

(** What a string ends in is what its non-empty suffix ends in. *)
Lemma last_char_append (a b : string) :
  b <> EmptyString -> last_char (a +:+ b) = last_char b.
Proof.
  intros Hb. induction a as [|x a IH]; [done |].
  rewrite append_cons, last_char_cons; [done |].
  destruct a; [by rewrite append_nil_l | by rewrite append_cons].
Qed.

Lemma last_char_Some_nonempty s c : last_char s = Some c -> s <> EmptyString.
Proof. by destruct s. Qed.

Lemma endswith_last_char (suf s : string) c :
  last_char suf = Some c -> endswith suf s = true -> last_char s = Some c.
Proof.
  intros Hsuf. induction s as [|a s IH]; cbn [endswith].
  - rewrite orb_false_r. intros H%String.eqb_eq. by subst.
  - intros [H%String.eqb_eq | H]%orb_true_iff; [by subst |].
    specialize (IH H). rewrite last_char_cons; [done |].
    by eapply last_char_Some_nonempty.
Qed.

Lemma has_slash_false_last s :
  has_slash s = false -> last_char s <> Some "/"%char.
Proof.
  induction s as [|a s IH]; [done |]. cbn [has_slash].
  intros [Ha Hs]%orb_false_iff. destruct s as [|b s].
  - cbn. intros [= ->]. done.
  - rewrite last_char_cons by done. auto.
Qed.

(** [basename] keeps the last character of a path that does not end in a
    slash. *)
Lemma last_char_basename s c :
  last_char s = Some c -> c <> "/"%char -> last_char (basename s) = Some c.
Proof.
  induction s as [|a s IH]; [done |]. intros Hl Hc. cbn [basename].
  destruct (has_slash s) eqn:Hs.
  - destruct s as [|b s]; [done |]. apply IH; [| done].
    by rewrite last_char_cons in Hl.
  - destruct (Ascii.eqb a "/") eqn:Ha; [| done].
    apply Ascii.eqb_eq in Ha; subst a. destruct s as [|b s].
    + cbn in Hl. congruence.
    + by rewrite last_char_cons in Hl.
Qed.

(** [os.path.join] ends in its second component. *)
Lemma last_char_path_join a b c :
  last_char b = Some c -> last_char (path_join a b) = Some c.
Proof.
  intros Hb. pose proof (last_char_Some_nonempty _ _ Hb) as Hne.
  unfold path_join. destruct (startswith "/" b); [done |].
  destruct (_ || _).
  - by rewrite last_char_append.
  - rewrite last_char_append; [| by destruct b].
    by rewrite (last_char_append "/" b).
Qed.

Lemma endswith_append (a suf : string) : endswith suf (a +:+ suf) = true.
Proof.
  induction a as [|x a IH].
  - rewrite append_nil_l. destruct suf; cbn [endswith]; by rewrite String.eqb_refl.
  - rewrite append_cons. cbn [endswith]. rewrite IH. apply orb_true_r.
Qed.

End PyFacts.

(** ** The Field Extractor *)

Module SoupFacts.
Import Soup.

(** Induction over a page, with the hypothesis for every child. *)
Lemma PageElement_tree_ind (P : PageElement -> Prop) :
  (forall s, P (NavigableString s)) ->
  (forall n a cs, Forall P cs -> P (Tag n a cs)) ->
  forall e, P e.
Proof.
  intros Hs Ht. fix IH 1. intros [s | n a cs]; [apply Hs | apply Ht].
  induction cs as [|c cs IHcs]; constructor; [apply IH | apply IHcs].
Qed.

Lemma descendants_Tag n a cs : descendants (Tag n a cs) = walk cs.
Proof. reflexivity. Qed.

Lemma walk_cons c rest :
  walk (c :: rest) = (c, rest) :: descendants c ++ walk rest.
Proof. reflexivity. Qed.

(** Whatever the traversal yields lies inside the page. *)
Lemma descendants_Below d : forall e sibs,
  (e, sibs) ∈ descendants d -> Below e d.
Proof.
  induction d as [s | n a cs IH] using PageElement_tree_ind;
    intros e sibs Hin.
  - by apply elem_of_nil in Hin.
  - rewrite descendants_Tag in Hin.
    induction cs as [|c cs IHcs]; [by apply elem_of_nil in Hin |].
    rewrite walk_cons in Hin. apply Forall_cons in IH as [IHc IHrest].
    apply elem_of_cons in Hin as [[= -> ->] | Hin].
    { apply Below_child. apply elem_of_cons; by left. }
    apply elem_of_app in Hin as [Hin | Hin].
    + eapply Below_deeper; [| by eapply IHc]. apply elem_of_cons; by left.
    + specialize (IHcs IHrest Hin). inversion IHcs; subst.
      * apply Below_child. apply elem_of_cons; by right.
      * eapply Below_deeper; [| done]. apply elem_of_cons; by right.
Qed.

Lemma walk_child cs : forall e, e ∈ cs -> exists sibs, (e, sibs) ∈ walk cs.
Proof.
  induction cs as [|c cs IH]; intros e He; [by apply elem_of_nil in He |].
  rewrite walk_cons. apply elem_of_cons in He as [-> | He].
  - exists cs. apply elem_of_cons; by left.
  - destruct (IH e He) as [sibs Hs]. exists sibs.
    apply elem_of_cons; right. apply elem_of_app; by right.
Qed.

Lemma walk_deeper cs : forall c x, c ∈ cs -> x ∈ descendants c -> x ∈ walk cs.
Proof.
  induction cs as [|c' cs IH]; intros c x Hc Hx; [by apply elem_of_nil in Hc |].
  rewrite walk_cons. apply elem_of_cons; right. apply elem_of_app.
  apply elem_of_cons in Hc as [-> | Hc]; [by left | right; eauto].
Qed.

(** Whatever lies inside the page is met by the traversal. *)
Lemma Below_descendants e d :
  Below e d -> exists sibs, (e, sibs) ∈ descendants d.
Proof.
  induction 1 as [n a cs He | n a cs c Hc _ [sibs IH]];
    rewrite descendants_Tag.
  - by apply walk_child.
  - exists sibs. by eapply walk_deeper.
Qed.

Lemma head_filter_None {A} (P : A -> Prop) `{!forall x, Decision (P x)}
    (l : list A) :
  head (filter P l) = None <-> forall x, x ∈ l -> ~ P x.
Proof.
  rewrite head_None. split.
  - intros Hnil x Hx HP.
    assert (x ∈ filter P l) as Hf by (apply list_elem_of_filter; done).
    rewrite Hnil in Hf. by apply elem_of_nil in Hf.
  - intros Hall. destruct (filter P l) as [|y t] eqn:E; [done |].
    assert (y ∈ filter P l) as Hy by (rewrite E; apply elem_of_cons; by left).
    apply list_elem_of_filter in Hy as [HP Hy]. by destruct (Hall y Hy).
Qed.

(** [find] misses exactly the labels that are not present. *)
Lemma find_None_iff soup label :
  find "td" (Some label) soup = None <-> ~ label_present soup label.
Proof.
  unfold find. rewrite head_filter_None. split.
  - intros Hall (e & Hbelow & Hm).
    destruct (Below_descendants _ _ Hbelow) as [sibs Hin].
    by apply (Hall (e, sibs) Hin).
  - intros Habs [e sibs] Hin Hm. apply Habs. exists e. split; [| done].
    by eapply descendants_Below.
Qed.

(** C9.  For every detail document and every label that no table cell of
    the document carries, the Field Extractor returns the absent marker
    ([None]) and does not raise: this holds of [get_text_or_none] and of
    the anchor aggregations [get_contributors] and [get_platforms] (and
    [get_samples]) for their labels. *)
Theorem absent_label_gives_absent_marker (soup : PageElement) (label : string) :
  ~ label_present soup label ->
  get_text_or_none soup label = Ok None
  /\ (label = "Contributor(s)" -> get_contributors soup = Ok None)
  /\ (label = "Platforms" -> get_platforms soup = Ok None)
  /\ (label = "Samples" -> get_samples soup = Ok None).
Proof.
  intros Habs%find_None_iff.
  assert (anchors_after soup label = Ok None) as Hanchors
    by (unfold anchors_after; by rewrite Habs).
  repeat split.
  - unfold get_text_or_none. by rewrite Habs.
  - intros ->. exact Hanchors.
  - intros ->. exact Hanchors.
  - intros ->. exact Hanchors.
Qed.

Lemma absent_label_witness :
  ~ label_present Scenario.detail_page "Platforms"
  /\ get_text_or_none Scenario.detail_page "Platforms" = Ok None
  /\ get_platforms Scenario.detail_page = Ok None.
Proof.
  assert (~ label_present Scenario.detail_page "Platforms") as Habs
    by (apply find_None_iff; vm_compute; reflexivity).
  split; [exact Habs |].
  pose proof (absent_label_gives_absent_marker
                Scenario.detail_page "Platforms" Habs) as (H1 & _ & H3 & _).
  split; [exact H1 | exact (H3 eq_refl)].
Defined.

End SoupFacts.

(** ** Dictionaries *)

Module DictFacts.
Import Dict.

Lemma eqb_false_ne (a b : string) : a <> b -> String.eqb a b = false.
Proof. intros H. by apply String.eqb_neq. Qed.

Lemma get_set_eq k v d : get k (set k v d) = Some v.
Proof.
  unfold get. induction d as [|[k' v'] d IH]; cbn.
  - by rewrite String.eqb_refl.
  - destruct (String.eqb k' k) eqn:E; cbn.
    + by rewrite String.eqb_refl.
    + by rewrite E.
Qed.

Lemma get_set_ne k k' v d : k <> k' -> get k (set k' v d) = get k d.
Proof.
  intros Hne. unfold get. induction d as [|[k0 v0] d IH]; cbn.
  - rewrite eqb_false_ne; done.
  - destruct (String.eqb k0 k') eqn:E; cbn.
    + apply String.eqb_eq in E; subst k0.
      rewrite !(eqb_false_ne k' k); done.
    + by rewrite IH.
Qed.

Lemma get_None_keys k d : get k d = None <-> k ∉ keys d.
Proof.
  unfold get, keys. induction d as [|[k' v'] d IH]; cbn.
  - split; [intros _; apply not_elem_of_nil | done].
  - rewrite not_elem_of_cons. destruct (String.eqb k' k) eqn:E.
    + apply String.eqb_eq in E. split; [done | intros [? _]; congruence].
    + apply String.eqb_neq in E. rewrite IH. split; [| tauto].
      intros ?; split; [congruence | done].
Qed.

End DictFacts.

(** ** The Sample Parser *)

Module ParserFacts.
Import MINiML.

(** A loop that appends one item per element builds the mapped list. *)
Lemma fold_append_map {A B} (f : A -> B) (l : list A) (init : list B) :
  fold_left (fun acc x => acc ++ [f x]) l init = init ++ (f <$> l).
Proof.
  revert init. induction l as [|x l IH]; intros init; cbn.
  - by rewrite app_nil_r.
  - rewrite IH. by rewrite <- app_assoc.
Qed.

Lemma samples_of_root_map root :
  samples_of_root root = sample_record <$> findall "Sample" root.
Proof. unfold samples_of_root. by rewrite fold_append_map. Qed.

Lemma note_other_key k d c :
  k <> "Tissue" -> k <> "Cell line" ->
  Dict.get k (note_characteristic d c) = Dict.get k d.
Proof.
  intros H1 H2. unfold note_characteristic.
  repeat case_match; try done; by rewrite DictFacts.get_set_ne.
Qed.

Lemma note_untagged d c :
  tagged "tissue" c = false ->
  Dict.get "Tissue" (note_characteristic d c) = Dict.get "Tissue" d.
Proof.
  unfold note_characteristic. intros ->.
  case_match; [by rewrite DictFacts.get_set_ne | done].
Qed.

Lemma note_tagged d c :
  tagged "tissue" c = true ->
  Dict.get "Tissue" (note_characteristic d c)
  = Some (Some (text_or_not_available c)).
Proof.
  unfold note_characteristic. intros ->.
  apply DictFacts.get_set_eq.
Qed.

Lemma fold_note_other_key k cs : forall d,
  k <> "Tissue" -> k <> "Cell line" ->
  Dict.get k (fold_left note_characteristic cs d) = Dict.get k d.
Proof.
  induction cs as [|c cs IH]; intros d H1 H2; cbn; [done |].
  rewrite IH by done. by apply note_other_key.
Qed.

Lemma fold_note_untagged cs : forall d,
  Forall (fun c => tagged "tissue" c = false) cs ->
  Dict.get "Tissue" (fold_left note_characteristic cs d)
  = Dict.get "Tissue" d.
Proof.
  induction cs as [|c cs IH]; intros d Hall; cbn; [done |].
  apply Forall_cons in Hall as [Hc Hcs].
  rewrite IH by done. by apply note_untagged.
Qed.

(** The record of a sample: its identifier, and its tissue, which is
    [None] unless a Characteristics element is tagged "tissue"; the last
    so tagged decides. *)
Lemma sample_record_fields sample :
  Dict.get "Sample Number (ID)" (sample_record sample)
  = Some (Some (get "iid" "Not Available" sample))
  /\ (Forall (fun c => tagged "tissue" c = false)
             (findall "Characteristics" sample) ->
      Dict.get "Tissue" (sample_record sample) = Some None)
  /\ (forall before c after,
        findall "Characteristics" sample = before ++ c :: after ->
        tagged "tissue" c = true ->
        Forall (fun c' => tagged "tissue" c' = false) after ->
        Dict.get "Tissue" (sample_record sample)
        = Some (Some (text_or_not_available c))).
Proof.
  unfold sample_record. repeat split.
  - by rewrite fold_note_other_key.
  - intros Hall. by rewrite fold_note_untagged.
  - intros before c after -> Hc Hafter.
    rewrite fold_left_app. cbn [fold_left].
    rewrite fold_note_untagged by done. by apply note_tagged.
Qed.

Lemma process_xml_file_parsed path root w :
  World.fs w !! path = Some (World.XmlFile (Some root)) ->
  Crawler.process_xml_file path w = (Ok (samples_of_root root), w).
Proof.
  intros H. unfold Crawler.process_xml_file, World.try_except, World.et_parse,
    World.bind, World.read_fs, World.ret.
  by rewrite H.
Qed.

(** The Sample Parser never raises and writes no file. *)
Lemma process_xml_file_total path w :
  exists samples w',
    Crawler.process_xml_file path w = (Ok samples, w')
    /\ World.fs w' = World.fs w
    /\ exists events, World.trace w' = World.trace w ++ events.
Proof.
  unfold Crawler.process_xml_file, World.try_except, World.et_parse,
    World.bind, World.read_fs, World.ret, World.raise, World.print,
    World.emit.
  destruct (World.fs w !! path) as [[| | [root |] |] |]; cbn;
    do 2 eexists; (split; [reflexivity |]); (split; [reflexivity |]);
    cbn; first [by exists []; rewrite app_nil_r | by eexists].
Qed.

(** C4, as amended.  For every well-formed document, the Sample Parser
    returns exactly one record per Sample element found below the root,
    in document order, without changing the world.  The record of a
    sample carries its [iid] (or "Not Available"); its tissue is the
    absent marker [None] when no Characteristics element of the sample is
    tagged "tissue", and otherwise the stripped text of the last one so
    tagged, "Not Available" standing for an empty text. *)
Theorem one_record_per_sample (path : string) (root : Element)
    (w : World.world) :
  World.fs w !! path = Some (World.XmlFile (Some root)) ->
  let samples := findall "Sample" root in
  exists records,
    Crawler.process_xml_file path w = (Ok records, w)
    /\ length records = length samples
    /\ records = sample_record <$> samples
    /\ forall i sample, samples !! i = Some sample ->
         exists record,
           records !! i = Some record
           /\ Dict.get "Sample Number (ID)" record
              = Some (Some (get "iid" "Not Available" sample))
           /\ (Forall (fun c => tagged "tissue" c = false)
                      (findall "Characteristics" sample) ->
               Dict.get "Tissue" record = Some None)
           /\ (forall before c after,
                 findall "Characteristics" sample = before ++ c :: after ->
                 tagged "tissue" c = true ->
                 Forall (fun c' => tagged "tissue" c' = false) after ->
                 Dict.get "Tissue" record
                 = Some (Some (text_or_not_available c))).
Proof.
  intros Hfile samples. exists (sample_record <$> samples).
  split; [| split; [| split]].
  - rewrite (process_xml_file_parsed _ _ _ Hfile).
    by rewrite samples_of_root_map.
  - by rewrite length_fmap.
  - reflexivity.
  - intros i sample Hi. exists (sample_record sample).
    split; [by rewrite list_lookup_fmap, Hi |].
    apply sample_record_fields.
Qed.

Lemma one_record_per_sample_witness :
  exists records,
    Crawler.process_xml_file Scenario.family_path Scenario.family_world
    = (Ok records, Scenario.family_world)
    /\ length records = 3%nat.
Proof.
  destruct (one_record_per_sample Scenario.family_path Scenario.family
              Scenario.family_world eq_refl) as (records & H1 & H2 & _).
  exists records. split; [exact H1 | exact H2].
Defined.

(** C4, as stated, fails: the second sample of the document has no
    Characteristics element tagged "tissue", and the tissue of its record
    is [None], not "Not Available". *)
Lemma sample_without_tissue_is_none :
  match fst (Crawler.process_xml_file Scenario.family_path
               Scenario.family_world) with
  | Ok [_; second; _] =>
      Dict.get "Sample Number (ID)" second = Some (Some "GSM2")
      /\ Dict.get "Tissue" second = Some None
      /\ Dict.get "Tissue" second <> Some (Some "Not Available")
  | _ => False
  end.
Proof. vm_compute. repeat split; discriminate. Qed.

End ParserFacts.

(** ** The Archive Retriever *)

Module RetrieverFacts.
Import World Retriever.

Ltac run :=
  unfold bind, ret, raise, lift, print, emit, read_fs, write_fs,
    path_exists, path_isfile in *; cbn [fs trace fst snd] in *.

(** The [finally] block never raises; it removes the regular file at the
    path of the scratch archive, if there is one, and touches nothing
    else. *)
Lemma clean_up_spec path w :
  exists w',
    clean_up path w = (Ok tt, w')
    /\ isfile_in (fs w') path = false
    /\ fs w' = (if isfile_in (fs w) path then delete path (fs w) else fs w)
    /\ trace w' = trace w ++ [Print (MsgCleaning path)].
Proof.
  unfold clean_up, os_remove. run. unfold exists_in, isfile_in.
  destruct (fs w !! path) as [[] |] eqn:E;
    repeat (progress (simpl; rewrite ?E));
    eexists; (split; [reflexivity |]); simpl;
    rewrite ?E, ?lookup_delete_eq; auto.
Qed.

(** C6.  On every return of the Archive Retriever, no regular file is
    left at the path of the scratch archive; and the Retriever does
    return (it never raises), whatever the web and the archive do. *)
Theorem scratch_archive_removed (env : Env) (self : FileHandler)
    (base_url accession_number : string) (w : world) :
  let out :=
    download_and_extract_from_url env self base_url accession_number w in
  (exists path, fst out = Ok path)
  /\ isfile_in (fs (snd out)) (tgz_path self accession_number) = false.
Proof.
  unfold download_and_extract_from_url, try_finally, try_except, tgz_path.
  run.
  match goal with
  | |- context [fetch_and_extract ?e ?s ?f ?u ?t ?x ?w0] =>
      destruct (fetch_and_extract e s f u t x w0) as [[p | e0] w1]
  end; cbn -[clean_up].
  - match goal with
    | |- context [clean_up ?t ?w1] =>
        destruct (clean_up_spec t w1) as (w2 & -> & Hfile & _)
    end.
    cbn. eauto.
  - match goal with
    | |- context [clean_up ?t ?w1] =>
        destruct (clean_up_spec t w1) as (w2 & -> & Hfile & _)
    end.
    cbn. eauto.
Qed.









End RetrieverFacts.

(** ** Data frames *)

Module FrameFacts.
Import Frame.

Lemma add_labels_snoc seen new c :
  add_labels seen (new ++ [c])
  = (let acc := add_labels seen new in
     if bool_decide (c ∈ acc) then acc else acc ++ [c]).
Proof. unfold add_labels. by rewrite fold_left_app. Qed.

Lemma add_labels_cons seen c new :
  add_labels seen (c :: new)
  = add_labels (if bool_decide (c ∈ seen) then seen else seen ++ [c]) new.
Proof. reflexivity. Qed.

(** Labels are only ever added at the end. *)
Lemma add_labels_extends new : forall seen,
  exists added, add_labels seen new = seen ++ added.
Proof.
  induction new as [|c new IH]; intros seen.
  - exists []. by rewrite app_nil_r.
  - rewrite add_labels_cons.
    destruct (bool_decide (c ∈ seen)); [apply IH |].
    destruct (IH (seen ++ [c])) as [added ->].
    exists (c :: added). by rewrite <- app_assoc.
Qed.

Lemma add_labels_seen seen new c : c ∈ seen -> c ∈ add_labels seen new.
Proof.
  intros H. destruct (add_labels_extends new seen) as [added ->].
  apply elem_of_app; by left.
Qed.

Lemma add_labels_new new : forall seen c, c ∈ new -> c ∈ add_labels seen new.
Proof.
  induction new as [|x new IH]; intros seen c Hc; [by apply elem_of_nil in Hc |].
  rewrite add_labels_cons. apply elem_of_cons in Hc as [-> | Hc].
  - apply add_labels_seen. case_bool_decide; [done |].
    apply elem_of_app; right. apply elem_of_cons; by left.
  - by apply IH.
Qed.

Lemma of_records_columns_fold data : forall seen,
  let cols := fold_left (fun acc d => add_labels acc (Dict.keys d)) data seen in
  (forall c, c ∈ seen -> c ∈ cols) /\ Forall (covered cols) data.
Proof.
  induction data as [|d data IH]; intros seen; cbn [fold_left].
  - split; [done | constructor].
  - destruct (IH (add_labels seen (Dict.keys d))) as [Hseen Hdata].
    split.
    + intros c Hc. by apply Hseen, add_labels_seen.
    + constructor; [| done]. intros k Hk. by apply Hseen, add_labels_new.
Qed.

(** The frame of a list of records has a column for every key. *)
Lemma of_records_covered data :
  Forall (covered (columns (of_records data))) data.
Proof. apply (of_records_columns_fold data []). Qed.

Lemma cell_of_uncovered d k : k ∉ Dict.keys d -> cell_of d k = None.
Proof.
  intros H%DictFacts.get_None_keys. unfold cell_of. by rewrite H.
Qed.

Lemma cell_at_record_row d c cols :
  cell_at cols (record_row cols d) c
  = if bool_decide (c ∈ cols) then cell_of d c else None.
Proof.
  unfold record_row. induction cols as [|k cols IH]; cbn; [done |].
  destruct (String.eqb k c) eqn:E.
  - apply String.eqb_eq in E; subst k.
    rewrite bool_decide_eq_true_2; [done | apply elem_of_cons; by left].
  - apply String.eqb_neq in E. rewrite IH.
    destruct (bool_decide (c ∈ cols)) eqn:Eb.
    + apply bool_decide_eq_true_1 in Eb.
      rewrite bool_decide_eq_true_2; [done | apply elem_of_cons; by right].
    + apply bool_decide_eq_false_1 in Eb.
      rewrite bool_decide_eq_false_2; [done |].
      intros [-> | H]%elem_of_cons; done.
Qed.

(** Re-aligning the row of a record gives the row of the record. *)
Lemma reindex_record_row d old new :
  covered old d -> reindex old new (record_row old d) = record_row new d.
Proof.
  intros Hcov. unfold reindex, record_row at 2.
  apply list_fmap_ext. intros _ c _. rewrite cell_at_record_row.
  case_bool_decide as Hc; [done |]. symmetry. apply cell_of_uncovered.
  intros Hk. by apply Hc, Hcov.
Qed.

Lemma covered_mono cols cols' d :
  (forall c, c ∈ cols -> c ∈ cols') -> covered cols d -> covered cols' d.
Proof. intros Hsub Hcov k Hk. by apply Hsub, Hcov. Qed.

(** [pd.concat] puts the new records after what the frame holds. *)
Lemma concat_holds a n records data :
  holds a n records ->
  holds (concat a (of_records data)) n (records ++ data).
Proof.
  intros (earlier & Hlen & Hrows & Hcov).
  set (b := of_records data). set (cols := add_labels (columns a) (columns b)).
  exists (reindex (columns a) cols <$> earlier).
  assert (forall c, c ∈ columns a -> c ∈ cols) as Ha
    by (intros c Hc; by apply add_labels_seen).
  assert (forall c, c ∈ columns b -> c ∈ cols) as Hb
    by (intros c Hc; by apply add_labels_new).
  split; [by rewrite length_fmap |]. split.
  - cbn. fold b cols. rewrite Hrows, fmap_app, fmap_app, <- app_assoc.
    f_equal. f_equal.
    + rewrite <- list_fmap_compose. apply Forall_fmap_ext_1.
      eapply Forall_impl; [exact Hcov |]. intros d Hd. cbn.
      by apply reindex_record_row.
    + subst b. cbn [rows of_records]. rewrite <- list_fmap_compose.
      apply Forall_fmap_ext_1.
      eapply Forall_impl; [apply of_records_covered |]. intros d Hd. cbn.
      by apply reindex_record_row.
  - cbn. fold b cols. apply Forall_app. split.
    + eapply Forall_impl; [exact Hcov |]. intros d. by apply covered_mono.
    + eapply Forall_impl; [apply of_records_covered |]. intros d.
      by apply covered_mono.
Qed.

(** [df[column] = None] for a new column keeps what the frame holds. *)
Lemma add_null_column_holds column df n records :
  column ∉ columns df ->
  holds df n records -> holds (add_null_column column df) n records.
Proof.
  intros Hnew (earlier & Hlen & Hrows & Hcov).
  exists ((fun r => r ++ [None]) <$> earlier).
  split; [by rewrite length_fmap |]. split.
  - cbn. rewrite Hrows, fmap_app. f_equal.
    rewrite <- list_fmap_compose. apply Forall_fmap_ext_1.
    eapply Forall_impl; [exact Hcov |]. intros d Hd. cbn.
    unfold record_row. rewrite fmap_app. cbn. f_equal. f_equal.
    symmetry. apply cell_of_uncovered. intros Hk. by apply Hnew, Hd.
  - cbn. eapply Forall_impl; [exact Hcov |]. intros d.
    apply covered_mono. intros c Hc. apply elem_of_app; by left.
Qed.

(** The back-fill keeps what the frame holds and the columns it has, and
    leaves no declared column out. *)
Lemma backfill_holds declared : forall df n records,
  holds df n records ->
  holds (backfill declared df) n records
  /\ (forall c, c ∈ columns df -> c ∈ columns (backfill declared df))
  /\ (forall c, c ∈ declared -> c ∈ columns (backfill declared df)).
Proof.
  unfold backfill.
  induction declared as [|column declared IH]; intros df n records Hdf; cbn.
  - split; [done |]. split; [done |]. intros c Hc. by apply elem_of_nil in Hc.
  - case_bool_decide as Hin.
    + destruct (IH df n records Hdf) as (H1 & H2 & H3).
      split; [done |]. split; [done |].
      intros c [-> | Hc]%elem_of_cons; auto.
    + destruct (IH (add_null_column column df) n records) as (H1 & H2 & H3).
      { by apply add_null_column_holds. }
      assert (forall c, c ∈ columns df ->
                        c ∈ columns (add_null_column column df)) as Hsub
        by (intros c Hc; cbn; apply elem_of_app; by left).
      split; [done |]. split; [by auto |].
      intros c [-> | Hc]%elem_of_cons; [| by auto].
      apply H2. cbn. apply elem_of_app; right. apply elem_of_cons; by left.
Qed.

(** What a flush writes: the frame read, the new records after it, and
    every declared column. *)
Lemma flush_holds declared df n records data :
  holds df n records ->
  let df' := backfill declared (concat df (of_records data)) in
  holds df' n (records ++ data)
  /\ (forall c, c ∈ declared -> c ∈ columns df').
Proof.
  intros Hdf df'.
  destruct (backfill_holds declared _ _ _ (concat_holds _ _ _ data Hdf))
    as (H1 & _ & H3).
  by split.
Qed.

(** Any frame holds its own rows. *)
Lemma holds_any df : holds df (length (rows df)) [].
Proof.
  exists (rows df). split; [done |]. split; [| constructor].
  cbn. by rewrite app_nil_r.
Qed.

(** The cell of a held record under a column of the frame. *)
Lemma holds_cell df n records i d c :
  holds df n records -> records !! i = Some d -> c ∈ columns df ->
  exists row,
    rows df !! (n + i)%nat = Some row /\ cell_at (columns df) row c = cell_of d c.
Proof.
  intros (earlier & Hlen & Hrows & _) Hi Hc.
  exists (record_row (columns df) d). split.
  - rewrite Hrows, lookup_app_r by lia.
    replace (n + i - length earlier)%nat with i by lia.
    by rewrite list_lookup_fmap, Hi.
  - rewrite cell_at_record_row. by rewrite bool_decide_eq_true_2.
Qed.

End FrameFacts.

(** ** The Tabular Sink *)

Module SinkFacts.
Import World Sink.

Lemma string_length_append (a b : string) :
  String.length (a +:+ b) = (String.length a + String.length b)%nat.
Proof.
  induction a as [|x a IH]; [done |].
  rewrite PyFacts.append_cons. cbn. by rewrite IH.
Qed.

Lemma append_inj_r (a b c : string) : a +:+ c = b +:+ c -> a = b.
Proof.
  revert b. induction a as [|x a IH]; intros [|y b] H.
  - done.
  - apply (f_equal String.length) in H.
    rewrite PyFacts.append_nil_l, PyFacts.append_cons in H. cbn in H.
    rewrite string_length_append in H. lia.
  - apply (f_equal String.length) in H.
    rewrite PyFacts.append_nil_l, PyFacts.append_cons in H. cbn in H.
    rewrite string_length_append in H. lia.
  - rewrite !PyFacts.append_cons in H. injection H as -> H.
    f_equal. by apply IH.
Qed.

(** Different indices name different files. *)
Lemma output_file_inj base : Inj (=) (=) (output_file base).
Proof.
  intros i j H. unfold output_file in H.
  apply String.app_inj in H. apply (String.app_inj "_") in H.
  apply append_inj_r in H. by apply pretty_nat_inj in H.
Qed.

Section WithEnv.
Variable env : Env.

Lemma over_threshold_exists files path :
  over_threshold env files path = true -> is_Some (files !! path).
Proof. unfold over_threshold. destruct (files !! path); [eauto | done]. Qed.

(** The loop stops at an index whose predecessors are all over the
    threshold, and which is not, unless the fuel ran out. *)
Lemma scan_spec files base fuel : forall i,
  let stop := scan env files base fuel i in
  (i <= stop)%nat
  /\ (forall j, (i <= j < stop)%nat ->
                over_threshold env files (output_file base j) = true)
  /\ (over_threshold env files (output_file base stop) = false
      \/ stop = (i + fuel)%nat).
Proof.
  induction fuel as [|fuel IH]; intros i; cbn.
  - split; [lia |]. split; [intros j Hj; lia | right; lia].
  - destruct (over_threshold env files (output_file base i)) eqn:E.
    + destruct (IH (S i)) as (H1 & H2 & H3). split; [lia |]. split.
      * intros j Hj. destruct (decide (j = i)) as [-> | Hne]; [done |].
        apply H2. lia.
      * destruct H3 as [H3 | H3]; [by left | right; lia].
    + split; [lia |]. split; [intros j Hj; lia | by left].
Qed.

(** A file system cannot hold more numbered files than it has files. *)
Lemma numbered_files_bounded (files : gmap string FileData) base n :
  (forall j, (1 <= j < 1 + n)%nat -> is_Some (files !! output_file base j)) ->
  (n <= size files)%nat.
Proof.
  intros Hall.
  set (names := output_file base <$> seq 1 n).
  assert (NoDup names) as Hnodup.
  { apply (NoDup_fmap_2 (output_file base) (Inj0:=output_file_inj base)).
    apply NoDup_seq. }
  assert (list_to_set names ⊆ dom files) as Hsub.
  { intros path Hin. apply elem_of_list_to_set in Hin.
    apply list_elem_of_fmap in Hin as (j & -> & Hj).
    apply elem_of_seq in Hj. apply elem_of_dom. apply Hall. lia. }
  apply subseteq_size in Hsub.
  rewrite size_list_to_set in Hsub by done.
  rewrite size_dom in Hsub. subst names.
  by rewrite length_fmap, length_seq in Hsub.
Qed.

(** The fuel given to the loop is enough: the target is the first
    numbered candidate that does not exist or is within the threshold. *)
Lemma scan_enough_fuel files base :
  let i := target_index env files base in
  (1 <= i)%nat
  /\ (forall j, (1 <= j < i)%nat ->
                over_threshold env files (output_file base j) = true)
  /\ over_threshold env files (output_file base i) = false.
Proof.
  unfold target_index.
  destruct (scan_spec files base (size files) 1) as (H1 & H2 & H3).
  split; [done |]. split; [done |].
  destruct H3 as [H3 | H3]; [done |].
  destruct (over_threshold env files
              (output_file base (scan env files base (size files) 1)))
    eqn:E; [| done].
  exfalso.
  assert (S (size files) <= size files)%nat; [| lia].
  apply (numbered_files_bounded files base).
  intros j Hj. apply over_threshold_exists.
  destruct (decide (j = (1 + size files)%nat)) as [-> | Hne].
  - by rewrite <- H3.
  - apply H2. lia.
Qed.

(** What a flush does, by what the target path holds. *)
Lemma save_to_excel_spec data base w :
  let target := output_file base (target_index env (fs w) base) in
  let written df :=
    (Ok tt,
     mkWorld (<[target := Workbook (merged df data)]> (fs w))
             (trace w ++ [Print (MsgSaved target)])) in
  match fs w !! target with
  | None => save_to_excel env data base w = written (Frame.empty columns)
  | Some (Workbook df) => save_to_excel env data base w = written df
  | Some _ => exists e, save_to_excel env data base w = (Raise e, w)
  end.
Proof.
  unfold save_to_excel, to_excel, read_excel, write_file, merged,
    path_exists, print, emit.
  unfold bind, ret, raise, read_fs, write_fs, exists_in.
  cbn [fs trace].
  set (target := output_file base _).
  destruct (fs w !! target) as [[| p | doc | df] |] eqn:E; cbn [fs trace];
    rewrite ?E; cbn [fs trace]; rewrite ?lookup_insert_eq; cbn [fs trace];
    rewrite ?lookup_insert_eq, ?E; cbn [fs trace];
    rewrite ?insert_insert_eq; eauto.
Qed.

End WithEnv.

(** C3, as amended.  For every flush of the Tabular Sink, the target is
    the first numbered candidate, counting from 1, that does not exist or
    whose size before the flush is within the threshold of 50 MB; the
    flush writes that file and no other.  (The size is consulted before
    the write only: the file written may end up above the threshold, and
    later flushes then pass it over.) *)
Theorem target_is_first_fitting (env : Env) (data : list Dict.pydict)
    (base : string) (w : world) :
  let i := target_index env (fs w) base in
  let out := save_to_excel env data base w in
  (1 <= i)%nat
  /\ (forall j, (1 <= j < i)%nat ->
        exists d, fs w !! output_file base j = Some d
                  /\ getsize env d > threshold)
  /\ (forall d, fs w !! output_file base i = Some d ->
                getsize env d <= threshold)
  /\ (forall path, path <> output_file base i ->
                   fs (snd out) !! path = fs w !! path)
  /\ (fst out = Ok tt ->
      exists df, fs (snd out) !! output_file base i = Some (Workbook df)).
Proof.
  intros i out.
  destruct (scan_enough_fuel env (fs w) base) as (H1 & H2 & H3).
  fold i in H1, H2, H3.
  split; [done |]. split; [| split].
  - intros j Hj. specialize (H2 j Hj). unfold over_threshold in H2.
    destruct (fs w !! output_file base j) as [d |]; [| done].
    exists d. split; [done | lia].
  - intros d Hd. unfold over_threshold in H3. rewrite Hd in H3. lia.
  - pose proof (save_to_excel_spec env data base w) as Hspec.
    cbn zeta in Hspec. fold i in Hspec. subst out.
    destruct (fs w !! output_file base i) as [[| p | doc | df] |];
      lazymatch type of Hspec with
      | ex _ =>
          destruct Hspec as [e ->]; cbn [fst snd];
          split; [reflexivity | intros [=]]
      | _ =>
          rewrite Hspec; cbn [fst snd fs]; (split;
            [ intros path Hne; by rewrite lookup_insert_ne
            | intros _; eexists; apply lookup_insert_eq ])
      end.
Qed.

Lemma target_is_first_fitting_witness :
  let out :=
    save_to_excel Scenario.row_cost_env Scenario.many_rows default_base
                  Scenario.empty_world in
  target_index Scenario.row_cost_env (fs Scenario.empty_world) default_base
  = 1%nat
  /\ target_index Scenario.row_cost_env (fs (snd out)) default_base = 2%nat
  /\ exists df, fs (snd out) !! "data/final_result_1.xlsx" = Some (Workbook df).
Proof.
  intros out. split; [reflexivity |]. split; [vm_compute; reflexivity |].
  destruct (target_is_first_fitting Scenario.row_cost_env Scenario.many_rows
              default_base Scenario.empty_world) as (_ & _ & _ & _ & H).
  apply H. vm_compute. reflexivity.
Defined.

(** C3, as stated, fails: a flush of fifty-one rows into a fresh
    directory, with an encoder that spends a megabyte on a row, leaves a
    first output file of fifty-one megabytes, above the threshold. *)
Lemma flush_exceeds_threshold :
  let out :=
    save_to_excel Scenario.row_cost_env Scenario.many_rows default_base
                  Scenario.empty_world in
  fst out = Ok tt
  /\ exists d, fs (snd out) !! output_file default_base 1 = Some d
               /\ getsize Scenario.row_cost_env d = 51 * 1024 * 1024
               /\ getsize Scenario.row_cost_env d > threshold.
Proof.
  split; [vm_compute; reflexivity |].
  eexists. split; [vm_compute; reflexivity |].
  split; [vm_compute; reflexivity | vm_compute; reflexivity].
Qed.

(** C8.  Whatever keys the appended rows have, a flush that returns
    leaves a file with every declared column; the appended rows are its
    last rows, in order, and each holds, under every declared column,
    the value of its record, null where the record has no such key. *)
Theorem declared_columns_kept (env : Env) (data : list Dict.pydict)
    (base : string) (w w' : world) :
  save_to_excel env data base w = (Ok tt, w') ->
  let target := output_file base (target_index env (fs w) base) in
  exists df n,
    fs w' !! target = Some (Workbook df)
    /\ (forall c, c ∈ columns -> c ∈ Frame.columns df)
    /\ length (Frame.rows df) = (n + length data)%nat
    /\ forall i d c,
         data !! i = Some d -> c ∈ columns ->
         exists row,
           Frame.rows df !! (n + i)%nat = Some row
           /\ Frame.cell_at (Frame.columns df) row c = Frame.cell_of d c
           /\ (Dict.get c d = None ->
               Frame.cell_at (Frame.columns df) row c = None).
Proof.
  intros Hsave target.
  pose proof (save_to_excel_spec env data base w) as Hspec.
  cbn zeta in Hspec. fold target in Hspec.
  assert (exists df0, w' = mkWorld (<[target := Workbook (merged df0 data)]>
                                      (fs w))
                                   (trace w ++ [Print (MsgSaved target)]))
    as [df0 ->].
  { destruct (fs w !! target) as [[| p | doc | df] |];
      lazymatch type of Hspec with
      | ex _ => destruct Hspec as [e Hspec]; congruence
      | _ => rewrite Hspec in Hsave; injection Hsave as <-; eauto
      end. }
  destruct (FrameFacts.flush_holds columns df0 _ [] data
              (FrameFacts.holds_any df0)) as [Hholds Hcols].
  exists (merged df0 data), (length (Frame.rows df0)).
  split; [apply lookup_insert_eq |]. split; [exact Hcols |]. split.
  - destruct Hholds as (earlier & Hlen & Hrows & _). unfold merged.
    by rewrite Hrows, length_app, length_fmap, Hlen.
  - intros i d c Hi Hc.
    destruct (FrameFacts.holds_cell _ _ _ i d c Hholds Hi (Hcols c Hc))
      as (row & Hrow & Hcell).
    exists row. split; [done |]. split; [done |].
    intros Habs. etrans; [exact Hcell |].
    unfold Frame.cell_of. by rewrite Habs.
Qed.

Lemma declared_columns_kept_witness :
  exists df,
    fs (snd (save_to_excel Scenario.row_cost_env Scenario.many_rows
               default_base Scenario.empty_world))
    !! "data/final_result_1.xlsx" = Some (Workbook df)
    /\ forall c, c ∈ columns -> c ∈ Frame.columns df.
Proof.
  destruct (declared_columns_kept Scenario.row_cost_env Scenario.many_rows
              default_base Scenario.empty_world
              (snd (save_to_excel Scenario.row_cost_env Scenario.many_rows
                      default_base Scenario.empty_world)))
    as (df & n & H1 & H2 & _).
  - vm_compute. reflexivity.
  - exists df. split; [exact H1 | exact H2].
Defined.

End SinkFacts.

(** ** The Search Crawler *)

Module CrawlerFacts.
Import World Crawler.

(** The join loop appends one merged row per sample, in order. *)
Lemma join_rows_map base_data samples_data results :
  join_rows base_data samples_data results
  = results ++ (Dict.merge base_data <$> samples_data).
Proof. unfold join_rows. apply ParserFacts.fold_append_map. Qed.

(** C1 at its failing input: the end-to-end scenario of the
    specification.  The search page lists accession GSE123, whose detail
    page has a title and a summary and no download link.  The run ends
    without a row for GSE123: the result list is empty and the output
    file holds the column header only, although the crawler has built the
    record of the accession with its "Not Found" and "Failed" marks. *)
Theorem no_link_accession_yields_no_row :
  let out := scrape_geo Scenario.no_link_env Scenario.empty_world in
  fst out = Ok []
  /\ fs (snd out) !! "data/final_result_1.xlsx"
     = Some (Workbook (Frame.empty Sink.columns))
  /\ Print (MsgStatusNoLink "GSE123") ∈ trace (snd out)
  /\ Soup.get_text_or_none Scenario.detail_page "Title" = Ok (Some "T")
  /\ join_rows [("Accession Number", Some "GSE123")] [] [] = [].
Proof.
  repeat split; try (vm_compute; reflexivity).
  vm_compute. do 4 (apply elem_of_cons; right). apply elem_of_cons; by left.
Qed.

(** C2 at its failing input: when the fetch of the first search page
    fails, the exception leaves [scrape_geo]; the run ends there, and the
    other keywords are never searched. *)
Theorem search_failure_ends_the_run (env : Env) (w : world) (e : exn) :
  http_get env (snd (hd ("", "") GEO_SEARCH_URLS)) = Raise e ->
  let out := scrape_geo env w in
  raised (fst out) = true
  /\ (forall handler w1,
        Retriever.init "data" w = (Ok handler, w1) ->
        fst out = Raise e
        /\ trace (snd out)
           = trace w1 ++ [ Print (MsgSearching "single-cell");
                           Get (snd (hd ("", "") GEO_SEARCH_URLS)) ]).
Proof.
  unfold GEO_SEARCH_URLS at 1 2. cbn [hd snd].
  intros Hget. unfold scrape_geo, scrape, bind.
  destruct (Retriever.init "data" w) as [[handler | e0] w1] eqn:Einit.
  - unfold GEO_SEARCH_URLS. cbn [for_each].
    unfold search at 1, requests_get, bind, print, emit, lift.
    cbn [fst snd fs trace]. rewrite Hget. cbn. rewrite Hget. cbn.
    split; [done |]. intros handler' w1' [= <- <-].
    split; [done |]. by rewrite <- app_assoc.
  - cbn. split; [done |]. intros ? ? [=].
Qed.

Lemma search_failure_witness :
  fst (scrape_geo Scenario.down_env Scenario.empty_world)
  = Raise ConnectionError.
Proof.
  destruct (search_failure_ends_the_run Scenario.down_env
              Scenario.empty_world ConnectionError eq_refl) as [_ H].
  edestruct H as [H1 _]; [| exact H1].
  vm_compute. reflexivity.
Defined.

End CrawlerFacts.

(** ** Runs: what the flushes of a run leave in the first output file *)

Module RunFacts.
Import World Crawler.

Lemma steady_refl path w : steady path w w.
Proof. split; [done |]. exists []. by rewrite app_nil_r. Qed.

Lemma steady_trans path w1 w2 w3 :
  steady path w1 w2 -> steady path w2 w3 -> steady path w1 w3.
Proof.
  intros [Hf1 [ev1 Ht1]] [Hf2 [ev2 Ht2]]. split; [congruence |].
  exists (ev1 ++ ev2). by rewrite Ht2, Ht1, app_assoc.
Qed.

Section Keeps.
Variable path : string.

Lemma keeps_ret {A} (a : A) : keeps path (ret a).
Proof. intros w r w' [= <- <-]. apply steady_refl. Qed.

Lemma keeps_raise {A} (e : exn) : keeps path (raise e : M A).
Proof. intros w r w' [= <- <-]. apply steady_refl. Qed.

Lemma keeps_lift {A} (x : result A) : keeps path (lift x).
Proof. intros w r w' [= <- <-]. apply steady_refl. Qed.

Lemma keeps_bind {A B} (m : M A) (k : A -> M B) :
  keeps path m -> (forall a, keeps path (k a)) -> keeps path (bind m k).
Proof.
  intros Hm Hk w r w'. unfold bind.
  destruct (m w) as [[a | e] w1] eqn:E.
  - intros H. eapply steady_trans; [by eapply Hm | by eapply Hk].
  - intros [= <- <-]. by eapply Hm.
Qed.

Lemma keeps_try_except {A} (m : M A) (handler : exn -> M A) :
  keeps path m -> (forall e, keeps path (handler e)) ->
  keeps path (try_except m handler).
Proof.
  intros Hm Hh w r w'. unfold try_except.
  destruct (m w) as [[a | e] w1] eqn:E.
  - intros [= <- <-]. by eapply Hm.
  - intros H. eapply steady_trans; [by eapply Hm | by eapply Hh].
Qed.

Lemma keeps_try_finally {A} (m : M A) (cleanup : M unit) :
  keeps path m -> keeps path cleanup -> keeps path (try_finally m cleanup).
Proof.
  intros Hm Hc w r w'. unfold try_finally.
  destruct (m w) as [r1 w1] eqn:E.
  destruct (cleanup w1) as [[[] | e] w2] eqn:E2; intros [= <- <-];
    (eapply steady_trans; [by eapply Hm | by eapply Hc]).
Qed.

Lemma keeps_emit e : keeps path (emit e).
Proof.
  intros w r w' [= <- <-]. split; [done |]. by eexists.
Qed.

Lemma keeps_print m : keeps path (print m).
Proof. apply keeps_emit. Qed.

Lemma keeps_read_fs : keeps path read_fs.
Proof. intros w r w' [= <- <-]. apply steady_refl. Qed.

Lemma keeps_insert other d :
  other <> path -> keeps path (write_fs (insert other d)).
Proof.
  intros Hne w r w' [= <- <-]. split; cbn.
  - by rewrite lookup_insert_ne.
  - exists []. by rewrite app_nil_r.
Qed.

Lemma keeps_delete other :
  other <> path -> keeps path (write_fs (delete other)).
Proof.
  intros Hne w r w' [= <- <-]. split; cbn.
  - by rewrite lookup_delete_ne.
  - exists []. by rewrite app_nil_r.
Qed.

Lemma keeps_path_exists p : keeps path (path_exists p).
Proof. apply keeps_bind; [apply keeps_read_fs | intros; apply keeps_ret]. Qed.

Lemma keeps_path_isfile p : keeps path (path_isfile p).
Proof. apply keeps_bind; [apply keeps_read_fs | intros; apply keeps_ret]. Qed.

Lemma keeps_write_file other d :
  other <> path -> keeps path (write_file other d).
Proof.
  intros Hne. apply keeps_bind; [apply keeps_read_fs |]. intros files.
  destruct (files !! other) as [[] |];
    first [apply keeps_raise | by apply keeps_insert].
Qed.

Lemma keeps_os_remove other : other <> path -> keeps path (os_remove other).
Proof.
  intros Hne. apply keeps_bind; [apply keeps_read_fs |]. intros files.
  destruct (files !! other) as [[] |];
    first [apply keeps_raise | by apply keeps_delete].
Qed.

Lemma keeps_tar_members p : keeps path (tar_members p).
Proof.
  apply keeps_bind; [apply keeps_read_fs |]. intros files.
  destruct (files !! p) as [[| [] | |] |];
    first [apply keeps_raise | apply keeps_ret].
Qed.

Lemma keeps_et_parse p : keeps path (et_parse p).
Proof.
  apply keeps_bind; [apply keeps_read_fs |]. intros files.
  destruct (files !! p) as [[| | [] |] |];
    first [apply keeps_raise | apply keeps_ret].
Qed.

Lemma keeps_raise_for_status r : keeps path (raise_for_status r).
Proof.
  unfold raise_for_status. destruct (_ && _);
    [apply keeps_raise | apply keeps_ret].
Qed.

Lemma keeps_item key e : keeps path (item key e).
Proof.
  unfold item. destruct (Soup.attr key e);
    [apply keeps_ret | apply keeps_raise].
Qed.

Lemma keeps_requests_head env url : keeps path (requests_head env url).
Proof. apply keeps_bind; [apply keeps_emit | intros; apply keeps_lift]. Qed.

Lemma keeps_requests_get env url : keeps path (requests_get env url).
Proof. apply keeps_bind; [apply keeps_emit | intros; apply keeps_lift]. Qed.

Lemma keeps_for_each {A S} (l : list A) (body : A -> S -> M S) :
  (forall x acc, keeps path (body x acc)) ->
  forall acc, keeps path (for_each l body acc).
Proof.
  intros Hbody. induction l as [|x l IH]; intros acc; cbn.
  - apply keeps_ret.
  - apply keeps_bind; [apply Hbody | exact IH].
Qed.

End Keeps.

(** One step through a computation, by its shape. *)
Ltac keeps_step :=
  lazymatch goal with
  | |- keeps _ (bind _ _) => apply keeps_bind; [| intros ?]
  | |- keeps _ (try_except _ _) => apply keeps_try_except; [| intros ?]
  | |- keeps _ (try_finally _ _) => apply keeps_try_finally
  | |- keeps _ (ret _) => apply keeps_ret
  | |- keeps _ (raise _) => apply keeps_raise
  | |- keeps _ (lift _) => apply keeps_lift
  | |- keeps _ (print _) => apply keeps_print
  | |- keeps _ (emit _) => apply keeps_emit
  | |- keeps _ read_fs => apply keeps_read_fs
  | |- keeps _ (path_exists _) => apply keeps_path_exists
  | |- keeps _ (path_isfile _) => apply keeps_path_isfile
  | |- keeps _ (tar_members _) => apply keeps_tar_members
  | |- keeps _ (et_parse _) => apply keeps_et_parse
  | |- keeps _ (raise_for_status _) => apply keeps_raise_for_status
  | |- keeps _ (item _ _) => apply keeps_item
  | |- keeps _ (requests_head _ _) => apply keeps_requests_head
  | |- keeps _ (requests_get _ _) => apply keeps_requests_get
  | |- keeps _ (if ?b then _ else _) => destruct b
  | |- keeps _ (match ?x with _ => _ end) => destruct x
  end.


Lemma extraction_path_ne dir name path :
  Py.endswith ".xml" name = true ->
  Py.last_char path = Some "x"%char ->
  Py.path_join dir (Py.basename name) <> path.
Proof.
  intros Hxml Hx Heq.
  assert (Py.last_char (Py.path_join dir (Py.basename name))
          = Some "l"%char) as Hl.
  { apply PyFacts.last_char_path_join, PyFacts.last_char_basename; [| done].
    by apply (PyFacts.endswith_last_char ".xml"). }
  congruence.
Qed.

Section KeepsOutput.
Variable env : Env.
Variable path : string.
Hypothesis path_ends_in_x : Py.last_char path = Some "x"%char.

Lemma keeps_extract_members self expected members :
  keeps path (Retriever.extract_members self expected members).
Proof.
  induction members as [|m members IH]; cbn [Retriever.extract_members].
  - apply keeps_ret.
  - destruct (Py.endswith ".xml" (member_name m)) eqn:E; [| exact IH].
    repeat lazymatch goal with
      | |- keeps _ (write_file _ _) =>
          apply keeps_write_file; by apply extraction_path_ne
      | _ => keeps_step
      end.
Qed.




End KeepsOutput.

(** *** The blocks that the flushes append *)








(** *** One visit *)





(** *** The trace of a run only grows *)

Lemma grows_refl w : grows w w.
Proof. exists []. by rewrite app_nil_r. Qed.

Lemma grows_trans w1 w2 w3 : grows w1 w2 -> grows w2 w3 -> grows w1 w3.
Proof.
  intros [ev1 H1] [ev2 H2]. exists (ev1 ++ ev2).
  by rewrite H2, H1, app_assoc.
Qed.






(** *** The loops of a run *)

Section Loops.
Variable env : Env.
Variable handler : Retriever.FileHandler.



End Loops.

(** *** The whole run *)






(** The run above, observed: the three samples of GSE1 are in the output
    file twice, before the sample of GSE2. *)
Example two_accessions_output :
  let out := scrape_geo Scenario.two_accessions_env Scenario.empty_world in
  match fst out with
  | Ok results => length results = 4%nat
  | Raise _ => False
  end
  /\ (Scenario.column "Sample Number (ID)"
        <$> (match fs (snd out) !! first_output with
             | Some (Workbook df) => Some df
             | _ => None
             end))
     = Some [ Some "GSM1"; Some "GSM2"; Some "GSM3";
              Some "GSM1"; Some "GSM2"; Some "GSM3"; Some "GSM9" ].
Proof. split; vm_compute; reflexivity. Qed.

End RunFacts.

(** ** More on the Archive Retriever and its handler *)

Module HandlerFacts.
Import World Retriever Outcome.






Section Quiet.
Variable path expected : string.

Lemma quiet_bind {A} (m : M A) (k : A -> M (option string)) :
  keeps path m -> (forall a, quiet_unless path expected (k a)) ->
  quiet_unless path expected (bind m k).
Proof.
  intros Hm Hk w r w'. unfold bind.
  destruct (m w) as [[a | e] w1] eqn:E.
  - intros Hrun. destruct (Hm _ _ _ E) as [Hfs Hgrow].
    destruct (Hk a _ _ _ Hrun) as [Hgrow' Hcase].
    split; [by apply (RunFacts.grows_trans _ w1) |].
    destruct Hcase as [[-> Hs] | [Hno Hsame]].
    + left. split; [done |]. intros d Hd. apply Hs. congruence.
    + right. split; [done | congruence].
  - intros [= <- <-]. destruct (Hm _ _ _ E) as [Hfs Hgrow].
    split; [done |]. right. split; [right; eauto | done].
Qed.

Lemma quiet_keeps_none (m : M unit) :
  keeps path m -> quiet_unless path expected (m ;;; ret None)%world.
Proof.
  intros Hm. apply quiet_bind; [done |]. intros _ w r w' [= <- <-].
  split; [apply RunFacts.grows_refl |]. right. split; [by left | done].
Qed.

Lemma quiet_try_except (m : M (option string)) (handler : exn -> M unit) :
  quiet_unless path expected m ->
  (forall e, keeps path (handler e)) ->
  quiet_unless path expected
    (try_except m (fun e => handler e ;;; ret None)%world).
Proof.
  intros Hm Hh w r w'. unfold try_except.
  destruct (m w) as [[a | e] w1] eqn:E.
  - intros [= <- <-]. by apply Hm.
  - intros Hrun. destruct (Hm _ _ _ E) as [Hgrow [[[=] _] | [_ Hsame]]].
    destruct (quiet_keeps_none (handler e) (Hh e) _ _ _ Hrun)
      as [Hgrow' [[-> Hs] | [Hno Hsame']]].
    + split; [by apply (RunFacts.grows_trans _ w1) |].
      left. split; [done |]. intros d Hd. apply Hs. congruence.
    + split; [by apply (RunFacts.grows_trans _ w1) |].
      right. split; [done | congruence].
Qed.

Lemma quiet_try_finally (m : M (option string)) (cleanup : M unit) :
  quiet_unless path expected m ->
  keeps path cleanup ->
  (forall w, exists w', cleanup w = (Ok tt, w')) ->
  quiet_unless path expected (try_finally m cleanup).
Proof.
  intros Hm Hkeeps Hok w r w'. unfold try_finally.
  destruct (m w) as [r1 w1] eqn:E. destruct (Hok w1) as [w2 E2].
  rewrite E2. intros [= <- <-].
  destruct (Hm _ _ _ E) as [Hgrow Hcase].
  destruct (Hkeeps _ _ _ E2) as [Hfs Hgrow2].
  split; [by apply (RunFacts.grows_trans _ w1) |].
  destruct Hcase as [[-> Hs] | [Hno Hsame]].
  - left. split; [done |]. intros d Hd. rewrite Hfs. by apply Hs.
  - right. split; [done | congruence].
Qed.

Lemma quiet_extract_members self members :
  quiet_unless path expected (extract_members self expected members).
Proof.
  induction members as [|m members IH]; cbn [extract_members].
  - intros w r w' [= <- <-]. split; [apply RunFacts.grows_refl |].
    right. split; [by left | done].
  - destruct (Py.endswith ".xml" (member_name m)); [| exact IH].
    intros w r w'. unfold write_file, path_exists, exists_in, print, emit,
      bind, read_fs, write_fs, ret, raise. cbn [fs trace].
    destruct (fs w !! _) as [d |] eqn:E; cbn [fs trace]; rewrite ?E;
      intros [= <- <-]; cbn [fs trace].
    + split; [by eexists |]. left. split; [done |]. by intros ?.
    + split; [by eexists |]. left. split; [done |]. intros d Hd.
      cbn [fs]. rewrite lookup_insert_ne; [done |]. congruence.
Qed.

Lemma quiet_fetch_and_extract env self file_name full_url tgz :
  tgz <> path ->
  quiet_unless path expected
    (fetch_and_extract env self file_name full_url tgz expected).
Proof.
  intros Hne. unfold fetch_and_extract, save_body, content_length_int.
  repeat lazymatch goal with
    | |- quiet_unless _ _ (extract_members _ _ _) =>
        apply quiet_extract_members
    | |- quiet_unless _ _ (bind (print _) (fun _ => ret None)) =>
        apply quiet_keeps_none, RunFacts.keeps_print
    | |- quiet_unless _ _ (bind _ _) => apply quiet_bind; [| intros ?]
    | |- quiet_unless _ _ (if ?b then _ else _) => destruct b
    | |- keeps _ (write_file _ _) => by apply RunFacts.keeps_write_file
    | |- keeps _ _ => RunFacts.keeps_step
    end.
Qed.

End Quiet.

Lemma quiet_download path env self base_url accession_number :
  tgz_path self accession_number <> path ->
  quiet_unless path (expected_path self accession_number)
    (download_and_extract_from_url env self base_url accession_number).
Proof.
  intros Hne. unfold download_and_extract_from_url.
  do 3 (apply quiet_bind; [apply RunFacts.keeps_print | intros _]).
  apply quiet_try_finally.
  - apply (quiet_try_except _ _ _ (fun e => print (MsgError _ e))).
    + by apply quiet_fetch_and_extract.
    + intros e. apply RunFacts.keeps_print.
  - unfold clean_up.
    repeat lazymatch goal with
      | |- keeps _ (os_remove _) => by apply RunFacts.keeps_os_remove
      | |- keeps _ _ => RunFacts.keeps_step
      end.
  - intros w. destruct (RetrieverFacts.clean_up_spec
                          (Py.path_join (output_dir self)
                             (accession_number +:+ "_family.xml.tgz")) w)
      as (w' & Hrun & _). eauto.
Qed.


Lemma scratch_ne_empty self accession_number :
  tgz_path self accession_number <> "".
Proof.
  unfold tgz_path. intros Heq.
  apply (f_equal Py.last_char) in Heq. revert Heq.
  erewrite PyFacts.last_char_path_join;
    [| by rewrite PyFacts.last_char_append]. done.
Qed.

Lemma download_never_raises env self base_url accession_number w :
  exists p,
    fst (download_and_extract_from_url env self base_url accession_number w)
    = Ok p.
Proof.
  unfold download_and_extract_from_url, try_finally, try_except.
  RetrieverFacts.run.
  match goal with
  | |- context [fetch_and_extract ?e ?s ?f ?u ?t ?x ?w0] =>
      destruct (fetch_and_extract e s f u t x w0) as [[p | e0] w1]
  end; cbn -[clean_up];
  match goal with
  | |- context [clean_up ?t ?w1] =>
      destruct (RetrieverFacts.clean_up_spec t w1) as (w2 & -> & _)
  end; cbn; eauto.
Qed.

Lemma download_result env self base_url accession_number w r w' :
  download_and_extract_from_url env self base_url accession_number w
  = (r, w') ->
  r = Ok None \/ r = Ok (Some (expected_path self accession_number)).
Proof.
  intros Hrun.
  destruct (download_never_raises env self base_url accession_number w)
    as [p Hp]. rewrite Hrun in Hp. cbn in Hp. subst r.
  destruct (quiet_download "" env self base_url accession_number
              (scratch_ne_empty _ _) _ _ _ Hrun)
    as [_ [[H _] | [[H | [e H]] _]]]; eauto. congruence.
Qed.

(** The Archive Retriever returns either no path or the expected path of
    the accession; it never raises.  Whatever it returns, every file
    that was there, other than the scratch archive, is still there with
    its content (an extracted file is never replaced); and when it
    returns no path, nothing but the scratch archive has changed: no
    file was extracted. *)
Theorem retriever_path_or_nothing (env : Env) (self : FileHandler)
    (base_url accession_number : string) (w : world) :
  let out :=
    download_and_extract_from_url env self base_url accession_number w in
  let scratch := tgz_path self accession_number in
  (fst out = Ok None
   \/ fst out = Ok (Some (expected_path self accession_number)))
  /\ (forall path d,
        path <> scratch -> fs w !! path = Some d ->
        fs (snd out) !! path = Some d)
  /\ (fst out = Ok None ->
      forall path, path <> scratch -> fs (snd out) !! path = fs w !! path).
Proof.
  intros out scratch.
  assert (forall path, path <> scratch ->
            (fst out = Ok (Some (expected_path self accession_number))
             /\ survives path w (snd out))
            \/ (no_path (fst out)
                /\ fs (snd out) !! path = fs w !! path)) as Hquiet.
  { intros path Hne.
    eapply (quiet_download path env self base_url accession_number);
      [done |].
    apply surjective_pairing. }
  split; [| split].
  - apply (download_result env self base_url accession_number w _ _
             (surjective_pairing _)).
  - intros path d Hne Hd.
    destruct (Hquiet path Hne) as [[_ H] | [_ H]]; [by apply H | congruence].
  - intros Hnone path Hne.
    destruct (Hquiet path Hne) as [[H _] | [_ H]]; [congruence | done].
Qed.

Lemma retriever_path_or_nothing_witness :
  fs (snd (download_and_extract_from_url Scenario.archive_env
             Scenario.handler Scenario.ftp_base "GSE1"
             Scenario.family_world)) !! Scenario.family_path
  = Some (XmlFile (Some Scenario.family))
  /\ fs (snd (download_and_extract_from_url Scenario.down_env
                Scenario.handler Scenario.ftp_base "GSE1"
                Scenario.family_world)) !! Scenario.family_path
     = fs Scenario.family_world !! Scenario.family_path.
Proof.
  split.
  - apply (proj1 (proj2 (retriever_path_or_nothing Scenario.archive_env
             Scenario.handler Scenario.ftp_base "GSE1"
             Scenario.family_world))).
    + intros H. vm_compute in H. discriminate H.
    + reflexivity.
  - apply (proj2 (proj2 (retriever_path_or_nothing Scenario.down_env
             Scenario.handler Scenario.ftp_base "GSE1"
             Scenario.family_world))).
    + vm_compute. reflexivity.
    + intros H. vm_compute in H. discriminate H.
Defined.

(** How far the [try] block gets, by what the probe gives. *)
Lemma fetch_outcome env self file_name url tgz expected w :
  exists r w1 events,
    fetch_and_extract env self file_name url tgz expected w = (r, w1)
    /\ trace w1 = trace w ++ [Print (MsgChecking url); Head url] ++ events
    /\ match probed_size env url with
       | Raise e => r = Raise e /\ events = []
       | Ok n =>
           if n >? size_ceiling
           then r = Ok None /\ events = [Print (MsgSkipping file_name n)]
           else exists rest,
                  events = [Print (MsgDownloading url); Get url] ++ rest
       end.
Proof.
  unfold fetch_and_extract.
  match goal with
  | |- context [bind (requests_get env url) ?k] => set (rest := k)
  end.
  assert (forall response, keeps (tgz +:+ "x") (rest response)) as Hrest.
  { assert (tgz <> tgz +:+ "x") as Hne.
    { intros Heq. apply (f_equal String.length) in Heq.
      rewrite SinkFacts.string_length_append in Heq. cbn in Heq. lia. }
    intros response. subst rest. cbv beta.
    unfold save_body, content_length_int.
    repeat lazymatch goal with
      | |- keeps _ (extract_members _ _ _) =>
          apply RunFacts.keeps_extract_members;
          by rewrite PyFacts.last_char_append
      | |- keeps _ (write_file _ _) => by apply RunFacts.keeps_write_file
      | |- keeps _ _ => RunFacts.keeps_step
      end. }
  clearbody rest. unfold probed_size, requests_head, requests_get,
    raise_for_status, content_length_int.
  RetrieverFacts.run.
  destruct (http_head env url) as [probe | e]; cbn [fs trace fst snd].
  2: { eexists _, _, []. split; [reflexivity |]. cbn [trace].
       by rewrite <- app_assoc. }
  destruct ((400 <=? status_code probe) && (status_code probe <? 600));
    cbn [fs trace fst snd].
  { eexists _, _, []. split; [reflexivity |]. cbn [trace].
    by rewrite <- app_assoc. }
  destruct (advertised_size probe) as [n | e]; cbn [fs trace fst snd].
  2: { eexists _, _, []. split; [reflexivity |]. cbn [trace].
       by rewrite <- app_assoc. }
  destruct (n >? size_ceiling); cbn [fs trace fst snd].
  { eexists _, _, [_]. split; [reflexivity |]. cbn [trace].
    by rewrite <- !app_assoc. }
  destruct (http_get env url) as [response | e]; cbn [fs trace fst snd].
  2: { eexists _, _, [_; _]. split; [reflexivity |]. cbn [trace].
       split; [by rewrite <- !app_assoc |]. by exists []. }
  match goal with
  | |- context [rest response ?w0] =>
      destruct (rest response w0) as [r w1] eqn:E;
      destruct (Hrest _ _ _ _ E) as [_ [events Hevents]]
  end.
  cbn [trace] in Hevents.
  exists r, w1, ([Print (MsgDownloading url); Get url] ++ events).
  split; [reflexivity |]. split; [| by eexists].
  rewrite Hevents, <- !app_assoc. reflexivity.
Qed.

(** The Archive Retriever asks the web for the archive exactly when the
    probe succeeded and advertised a size within the ceiling (a missing
    size header counts as size zero).  When the probe fails -- no
    answer, an error status, or a size that is not a number -- the
    Retriever returns no path and prints one error line, between the
    probe and the cleaning. *)
Theorem download_only_after_fitting_probe (env : Env) (self : FileHandler)
    (base_url accession_number : string) (w : world) :
  let url := archive_url base_url accession_number in
  let out :=
    download_and_extract_from_url env self base_url accession_number w in
  exists events,
    trace (snd out) = trace w ++ events
    /\ (Get url ∈ events <->
        exists n, probed_size env url = Ok n /\ n <= size_ceiling)
    /\ (forall e,
          probed_size env url = Raise e ->
          fst out = Ok None
          /\ events = failed_probe_events self base_url accession_number e).
Proof.
  intros url out. subst out.
  unfold download_and_extract_from_url, try_finally, try_except.
  fold (archive_url base_url accession_number). fold url.
  RetrieverFacts.run.
  match goal with
  | |- context [fetch_and_extract ?e ?s ?f ?u ?t ?x ?w0] =>
      destruct (fetch_outcome e s f u t x w0)
        as (r & w1 & events & -> & Htrace & Hcase)
  end.
  cbn [trace] in Htrace.
  destruct (probed_size env url) as [n | e] eqn:Hprobe.
  - destruct (n >? size_ceiling) eqn:Hsize.
    + destruct Hcase as [-> ->]. cbn -[clean_up].
      match goal with
      | |- context [clean_up ?t ?w1] =>
          destruct (RetrieverFacts.clean_up_spec t w1)
            as (w2 & -> & _ & _ & Htrace2)
      end.
      cbn [fst snd]. eexists. split; [| split].
      * rewrite Htrace2, Htrace, <- !app_assoc. reflexivity.
      * split.
        -- intros Hin.
           repeat (apply elem_of_cons in Hin as [Hin | Hin];
                   [discriminate |]).
           by apply elem_of_nil in Hin.
        -- intros (n' & [= <-] & Hle). lia.
      * intros e [=].
    + destruct Hcase as [rest ->].
      destruct r as [a | e]; cbn -[clean_up];
        match goal with
        | |- context [clean_up ?t ?w1] =>
            destruct (RetrieverFacts.clean_up_spec t w1)
              as (w2 & -> & _ & _ & Htrace2)
        end; cbn [fst snd trace] in *; eexists;
        (split; [rewrite Htrace2, ?Htrace, <- !app_assoc; reflexivity |]);
        (split; [| intros e' [=]]);
        (split; [intros _; exists n; split; [done | lia] |]);
        intros _; set_solver.
  - destruct Hcase as [-> ->]. cbn -[clean_up].
    match goal with
    | |- context [clean_up ?t ?w1] =>
        destruct (RetrieverFacts.clean_up_spec t w1)
          as (w2 & -> & _ & _ & Htrace2)
    end.
    cbn [fst snd]. eexists. split; [| split].
    + rewrite Htrace2. cbn [trace]. rewrite Htrace, <- !app_assoc.
      reflexivity.
    + split.
      * intros Hin.
        repeat (apply elem_of_cons in Hin as [Hin | Hin];
                [discriminate |]).
        by apply elem_of_nil in Hin.
      * intros (n' & [=] & _).
    + intros e' [= <-]. split; [done |]. reflexivity.
Qed.

Lemma download_only_after_fitting_probe_witness :
  fst (download_and_extract_from_url Scenario.down_env Scenario.handler
         Scenario.ftp_base "GSE1" Scenario.empty_world) = Ok None.
Proof.
  destruct (download_only_after_fitting_probe Scenario.down_env
              Scenario.handler Scenario.ftp_base "GSE1"
              Scenario.empty_world) as (events & _ & _ & H).
  exact (proj1 (H ConnectionError eq_refl)).
Defined.

End HandlerFacts.

(** ** More on dictionaries and on the records of the Sample Parser *)

Module RecordFacts.
Import MINiML.

Lemma keys_set_present k v d :
  k ∈ Dict.keys d -> Dict.keys (Dict.set k v d) = Dict.keys d.
Proof.
  unfold Dict.keys. induction d as [|[k' v'] d IH]; cbn.
  - intros H. by apply elem_of_nil in H.
  - intros H. destruct (String.eqb k' k) eqn:E; cbn.
    + apply String.eqb_eq in E. by subst.
    + apply String.eqb_neq in E. apply elem_of_cons in H as [-> | H];
        [done |]. by rewrite IH.
Qed.

Lemma keys_set_absent k v d :
  k ∉ Dict.keys d -> Dict.keys (Dict.set k v d) = Dict.keys d ++ [k].
Proof.
  unfold Dict.keys. induction d as [|[k' v'] d IH]; cbn; [done |].
  intros H. apply not_elem_of_cons in H as [Hne H].
  rewrite DictFacts.eqb_false_ne by done. cbn. by rewrite IH.
Qed.

(** Merging in a dictionary whose keys are new and distinct appends
    them. *)
Lemma keys_merge_fresh b : forall a,
  NoDup (Dict.keys b) ->
  (forall k, k ∈ Dict.keys b -> k ∉ Dict.keys a) ->
  Dict.keys (Dict.merge a b) = Dict.keys a ++ Dict.keys b.
Proof.
  unfold Dict.merge.
  induction b as [|[k v] b IH]; intros a Hnd Hfresh; cbn.
  - by rewrite app_nil_r.
  - change (Dict.keys ((k, v) :: b)) with (k :: Dict.keys b) in *.
    apply NoDup_cons in Hnd as [Hk Hnd].
    rewrite IH; [| done |].
    + rewrite keys_set_absent by (apply Hfresh; by left).
      by rewrite <- app_assoc.
    + intros k' Hk'. rewrite keys_set_absent by (apply Hfresh; by left).
      intros Hin. apply elem_of_app in Hin as [Hin | Hin].
      * revert Hin. apply Hfresh. by right.
      * apply list_elem_of_singleton in Hin. by subst.
Qed.

Lemma get_merge_other k b : forall a,
  k ∉ Dict.keys b -> Dict.get k (Dict.merge a b) = Dict.get k a.
Proof.
  unfold Dict.merge.
  induction b as [|[k' v] b IH]; intros a Hk; cbn; [done |].
  change (Dict.keys ((k', v) :: b)) with (k' :: Dict.keys b) in *.
  apply not_elem_of_cons in Hk as [Hne Hk].
  rewrite IH by done. by apply DictFacts.get_set_ne.
Qed.

Lemma keys_note d c :
  "Tissue" ∈ Dict.keys d -> "Cell line" ∈ Dict.keys d ->
  Dict.keys (note_characteristic d c) = Dict.keys d.
Proof.
  intros H1 H2. unfold note_characteristic.
  repeat case_match; by rewrite ?keys_set_present.
Qed.

Lemma keys_fold_note cs : forall d,
  "Tissue" ∈ Dict.keys d -> "Cell line" ∈ Dict.keys d ->
  Dict.keys (fold_left note_characteristic cs d) = Dict.keys d.
Proof.
  induction cs as [|c cs IH]; intros d H1 H2; cbn; [done |].
  rewrite IH by (by rewrite keys_note). by apply keys_note.
Qed.

Lemma sample_record_keys sample :
  Dict.keys (sample_record sample)
  = ["Sample Number (ID)"; "Tissue"; "Cell line"].
Proof.
  unfold sample_record. rewrite keys_fold_note; [done | |]; cbn; set_solver.
Qed.

(** A tag cannot name both fields. *)
Lemma tagged_exclusive c :
  tagged "cell line" c = true -> tagged "tissue" c = false.
Proof.
  unfold tagged. intros H%String.eqb_eq. rewrite H. reflexivity.
Qed.

Lemma note_cell_line_untagged d c :
  tagged "cell line" c = false ->
  Dict.get "Cell line" (note_characteristic d c) = Dict.get "Cell line" d.
Proof.
  unfold note_characteristic. intros ->.
  case_match; [by rewrite DictFacts.get_set_ne | done].
Qed.

Lemma fold_note_cell_line_untagged cs : forall d,
  Forall (fun c => tagged "cell line" c = false) cs ->
  Dict.get "Cell line" (fold_left note_characteristic cs d)
  = Dict.get "Cell line" d.
Proof.
  induction cs as [|c cs IH]; intros d Hall; cbn; [done |].
  apply Forall_cons in Hall as [Hc Hcs].
  rewrite IH by done. by apply note_cell_line_untagged.
Qed.

(** Every record of the Sample Parser has the same three keys, in the
    same order, whatever the sample holds; its cell line is the absent
    marker when no Characteristics element of the sample is tagged
    "cell line" (in any letter case), and otherwise the text of the last
    one so tagged. *)
Theorem sample_record_schema (sample : Element) :
  Dict.keys (sample_record sample)
  = ["Sample Number (ID)"; "Tissue"; "Cell line"]
  /\ (Forall (fun c => tagged "cell line" c = false)
             (findall "Characteristics" sample) ->
      Dict.get "Cell line" (sample_record sample) = Some None)
  /\ (forall before c after,
        findall "Characteristics" sample = before ++ c :: after ->
        tagged "cell line" c = true ->
        Forall (fun c' => tagged "cell line" c' = false) after ->
        Dict.get "Cell line" (sample_record sample)
        = Some (Some (text_or_not_available c))).
Proof.
  split; [apply sample_record_keys |]. unfold sample_record. split.
  - intros Hall. by rewrite fold_note_cell_line_untagged.
  - intros before c after -> Hc Hafter.
    rewrite fold_left_app. cbn [fold_left].
    rewrite fold_note_cell_line_untagged by done.
    unfold note_characteristic.
    rewrite (tagged_exclusive _ Hc), Hc. apply DictFacts.get_set_eq.
Qed.

Lemma sample_record_schema_witness :
  Dict.get "Cell line"
    (sample_record (Scenario.sample "GSM2"
                      [Scenario.characteristics "Cell Line" " MCF7 "]))
  = Some (Some "MCF7").
Proof.
  apply (proj2 (proj2 (sample_record_schema
                         (Scenario.sample "GSM2"
                            [Scenario.characteristics "Cell Line" " MCF7 "])))
           [] (Scenario.characteristics "Cell Line" " MCF7 ") []).
  - reflexivity.
  - reflexivity.
  - constructor.
Defined.

(** The Sample Parser never raises and never writes: it returns the
    records of the document when the file holds a well-formed one, and
    otherwise -- no file, a directory, a file that is not XML or not
    well formed -- an empty list, after one line that reports the
    failure. *)
Theorem process_xml_file_outcomes (path : string) (w : World.world) :
  exists samples w',
    Crawler.process_xml_file path w = (Ok samples, w')
    /\ World.fs w' = World.fs w
    /\ ((exists root,
           World.fs w !! path = Some (World.XmlFile (Some root))
           /\ samples = sample_record <$> findall "Sample" root
           /\ w' = w)
        \/ ((~ exists root,
               World.fs w !! path = Some (World.XmlFile (Some root)))
            /\ samples = []
            /\ exists e,
                 World.trace w'
                 = World.trace w
                   ++ [World.Print (World.MsgXmlFailed path e)])).
Proof.
  unfold Crawler.process_xml_file, World.try_except, World.et_parse,
    World.bind, World.read_fs, World.ret, World.raise, World.print,
    World.emit.
  destruct (World.fs w !! path) as [[| | [root |] |] |] eqn:E; cbn;
    do 2 eexists; (split; [reflexivity |]); (split; [reflexivity |]);
    cbn;
    first [ left; exists root; rewrite ParserFacts.samples_of_root_map;
            by destruct w
          | right; split; [by intros [? [=]] |]; split; [done |];
            by eexists ].
Qed.

End RecordFacts.

(** ** The rows of the Search Crawler *)

Module RowFacts.
Import World Crawler Outcome.

Lemma base_data_of_fields keyword accession_number soup url path base :
  base_data_of keyword accession_number soup url path = Ok base ->
  Dict.keys base = base_keys
  /\ Dict.get "Keyword" base = Some (Some keyword)
  /\ Dict.get "Accession Number" base = Some (Some accession_number)
  /\ Dict.get "XML File URL" base = Some (Some url)
  /\ Dict.get "XML File Path" base = Some path.
Proof.
  unfold base_data_of. intros H.
  repeat match type of H with
         | match ?x with _ => _ end = _ => destruct x; [| discriminate H]
         end.
  injection H as <-. repeat split.
Qed.

Lemma process_xml_file_records path w samples w' :
  process_xml_file path w = (Ok samples, w') ->
  exists elements, samples = MINiML.sample_record <$> elements.
Proof.
  unfold process_xml_file, try_except, et_parse, bind, read_fs, ret, raise,
    print, emit.
  destruct (fs w !! path) as [[| | [root |] |] |]; cbn; intros [= <- <-];
    first [ by exists [] | eexists; apply ParserFacts.samples_of_root_map ].
Qed.

Lemma bind_Ok {A B} (m : M A) (k : A -> M B) w b w' :
  bind m k w = (Ok b, w') ->
  exists a w1, m w = (Ok a, w1) /\ k a w1 = (Ok b, w').
Proof.
  unfold bind. destruct (m w) as [[a | e] w1]; [eauto | discriminate].
Qed.

Lemma item_Ok key e w v w' :
  item key e w = (Ok v, w') -> Soup.attr key e = Some v.
Proof.
  unfold item. destruct (Soup.attr key e); [| discriminate].
  by intros [= <- <-].
Qed.

Lemma gather_fields env handler keyword link w base samples w' :
  gather env handler keyword link w = (Ok (base, samples), w') ->
  exists href,
    Soup.attr "href" link = Some href
    /\ let accession_number :=
         accession_of_url ("https://www.ncbi.nlm.nih.gov" +:+ href) in
       Dict.keys base = base_keys
       /\ Dict.get "Keyword" base = Some (Some keyword)
       /\ Dict.get "Accession Number" base = Some (Some accession_number)
       /\ (exists elements, samples = MINiML.sample_record <$> elements)
       /\ (samples = []
           \/ (Dict.get "XML File Path" base
               = Some (Some (Retriever.expected_path handler
                               accession_number))
               /\ exists base_url,
                    Dict.get "XML File URL" base
                    = Some (Some (base_url +:+ accession_number
                                  +:+ "_family.xml.tgz")))).
Proof.
  unfold gather. intros H.
  apply bind_Ok in H as (href & w1 & Hhref%item_Ok & H).
  exists href. split; [done |]. lazy zeta in H |- *.
  set (accession_number := accession_of_url _) in *.
  apply bind_Ok in H as ([] & w2 & _ & H).
  apply bind_Ok in H as (page & w3 & _ & H).
  apply bind_Ok in H as (found & w4 & Hfound & H).
  apply bind_Ok in H as (base0 & w5 & Hbase & H).
  injection H as <- <- <-. unfold lift in Hbase. injection Hbase as Hbase _.
  apply base_data_of_fields in Hbase as (Hkeys & Hkw & Hacc & Hurl & Hpath).
  split; [done |]. split; [done |]. split; [done |].
  destruct (Soup.find "a" (Some miniml_label) (soup_of page))
    as [miniml_link |].
  - apply bind_Ok in Hfound as (link_href & w6 & _ & Hfound).
    apply bind_Ok in Hfound as ([] & w7 & _ & Hfound).
    apply bind_Ok in Hfound as (xml_file_path & w8 & Hdl & Hfound).
    apply HandlerFacts.download_result in Hdl as [[= ->] | [= ->]].
    + apply bind_Ok in Hfound as ([] & w9 & _ & Hfound).
      injection Hfound as <- _. split; [by exists [] | by left].
    + apply bind_Ok in Hfound as ([] & w9 & _ & Hfound).
      apply bind_Ok in Hfound as (samples_data & w10 & Hparse & Hfound).
      injection Hfound as <- _. cbn [fst snd] in *.
      split; [by eapply process_xml_file_records |].
      right. split; [done |]. by eexists.
  - apply bind_Ok in Hfound as ([] & w6 & _ & Hfound).
    injection Hfound as <- _. split; [by exists [] | by left].
Qed.

Lemma sample_keys_fresh :
  Forall (fun k => k ∉ base_keys) ["Sample Number (ID)"; "Tissue"; "Cell line"].
Proof. repeat constructor; by apply (bool_decide_unpack _). Qed.

Lemma visit_rows (env : Env)
    (handler : Retriever.FileHandler) (keyword : string)
    (link : Soup.PageElement) (results results' : list Dict.pydict)
    (w w' : world) :
  visit env handler keyword link results w = (Ok results', w') ->
  exists href rows,
    Soup.attr "href" link = Some href
    /\ results' = results ++ rows
    /\ forall row, row ∈ rows ->
         let accession_number :=
           accession_of_url ("https://www.ncbi.nlm.nih.gov" +:+ href) in
         Dict.keys row = row_keys
         /\ Dict.get "Keyword" row = Some (Some keyword)
         /\ Dict.get "Accession Number" row = Some (Some accession_number)
         /\ Dict.get "XML File Path" row
            = Some (Some (Retriever.expected_path handler accession_number))
         /\ (exists base_url,
               Dict.get "XML File URL" row
               = Some (Some (base_url +:+ accession_number
                             +:+ "_family.xml.tgz")))
         /\ Dict.get "XML File URL" row <> Some (Some "Not Found")
         /\ Dict.get "XML File Path" row <> Some (Some "Failed").
Proof.
  unfold visit. intros H.
  apply bind_Ok in H as ([base samples] & w1 & Hgather & H).
  apply bind_Ok in H as ([] & w2 & _ & H). injection H as <- _.
  apply gather_fields in Hgather
    as (href & Hhref & Hkeys & Hkw & Hacc & [elements ->] & Hcase).
  cbn [fst snd]. rewrite CrawlerFacts.join_rows_map.
  exists href, (Dict.merge base <$> (MINiML.sample_record <$> elements)).
  split; [done |]. split; [done |].
  intros row Hrow. cbn zeta in *.
  apply list_elem_of_fmap in Hrow as (record & -> & Hrecord).
  apply list_elem_of_fmap in Hrecord as (sample & -> & Hsample).
  destruct Hcase as [Hnil | (Hpath & base_url & Hurl)].
  { destruct elements; [by apply elem_of_nil in Hsample | discriminate]. }
  pose proof (RecordFacts.sample_record_keys sample) as Hsk.
  assert (forall k, k ∈ base_keys ->
            Dict.get k (Dict.merge base (MINiML.sample_record sample))
            = Dict.get k base) as Hget.
  { intros k Hk. apply RecordFacts.get_merge_other. rewrite Hsk.
    intros Hin. eapply Forall_forall in Hin; [| exact sample_keys_fresh].
    done. }
  assert (Dict.get "XML File Path"
            (Dict.merge base (MINiML.sample_record sample))
          = Dict.get "XML File Path" base) as Hp
    by (apply Hget; by apply (bool_decide_unpack _)).
  assert (Dict.get "XML File URL"
            (Dict.merge base (MINiML.sample_record sample))
          = Dict.get "XML File URL" base) as Hu
    by (apply Hget; by apply (bool_decide_unpack _)).
  split; [| split; [| split; [| split; [| split; [| split]]]]].
  - rewrite RecordFacts.keys_merge_fresh.
    + by rewrite Hkeys, Hsk.
    + rewrite Hsk. by apply (bool_decide_unpack _).
    + intros k. rewrite Hsk, Hkeys. intros Hk.
      by eapply Forall_forall in Hk; [| exact sample_keys_fresh].
  - rewrite Hget; [done |]. by apply (bool_decide_unpack _).
  - rewrite Hget; [done |]. by apply (bool_decide_unpack _).
  - by rewrite Hp.
  - exists base_url. by rewrite Hu.
  - rewrite Hu, Hurl. intros [= Heq].
    apply (f_equal Py.last_char) in Heq. revert Heq.
    rewrite <- PyFacts.append_assoc, PyFacts.last_char_append by done.
    done.
  - rewrite Hp, Hpath. intros [= Heq].
    apply (f_equal Py.last_char) in Heq. revert Heq.
    unfold Retriever.expected_path.
    erewrite PyFacts.last_char_path_join;
      [| by rewrite PyFacts.last_char_append]. done.
Qed.



(** A loop keeps what every turn keeps. *)
Lemma for_each_invariant {A S} (I : S -> Prop) (body : A -> S -> M S)
    (l : list A) :
  (forall x acc w acc' w',
     x ∈ l -> I acc -> body x acc w = (Ok acc', w') -> I acc') ->
  forall acc w r w',
    I acc -> for_each l body acc w = (Ok r, w') -> I r.
Proof.
  induction l as [|x l IH]; intros Hbody acc w r w' Hacc; cbn [for_each].
  - by intros [= <- <-].
  - intros H. apply bind_Ok in H as (acc1 & w1 & Hx & H).
    eapply IH; [| | exact H].
    + intros y ? ? ? ? Hy. apply Hbody. by right.
    + eapply Hbody; [by left | exact Hacc | exact Hx].
Qed.

(** All the rows of a run have one and the same list of keys; each
    carries the keyword of one of the searches; and none has a value for
    the declared columns "Dataset URL", "Samples" and "Cell Type", which
    no row has as a key (the cell type is recorded under "Cell line"). *)
Theorem run_rows_share_one_schema (env : Env)
    (searches : list (string * string)) (results : list Dict.pydict)
    (w w' : world) :
  scrape env searches w = (Ok results, w') ->
  Forall (fun row =>
            Dict.keys row = row_keys
            /\ (exists keyword,
                  keyword ∈ searches.*1
                  /\ Dict.get "Keyword" row = Some (Some keyword))
            /\ Frame.cell_of row "Dataset URL" = None
            /\ Frame.cell_of row "Samples" = None
            /\ Frame.cell_of row "Cell Type" = None)
         results.
Proof.
  unfold scrape. intros H.
  apply bind_Ok in H as (handler & w1 & _ & H).
  revert H. apply for_each_invariant; [| constructor].
  intros query acc w2 acc' w3 Hquery Hacc. unfold search. intros H.
  apply bind_Ok in H as ([] & w4 & _ & H).
  apply bind_Ok in H as (page & w5 & _ & H).
  revert H. apply for_each_invariant; [| exact Hacc].
  clear -Hquery. intros link acc w acc' w' _ Hacc Hvisit.
  apply visit_rows in Hvisit as (href & rows & _ & -> & Hrows).
  apply Forall_app. split; [done |]. apply Forall_forall. intros row Hrow.
  destruct (Hrows row Hrow) as (Hkeys & Hkw & _).
  split; [done |]. split.
  - exists query.1. split; [| done]. by apply list_elem_of_fmap_2.
  - repeat split; apply FrameFacts.cell_of_uncovered; rewrite Hkeys;
      by apply (bool_decide_unpack _).
Qed.

Lemma run_rows_witness :
  exists results,
    fst (scrape_geo Scenario.two_accessions_env Scenario.empty_world)
    = Ok results
    /\ length results = 4%nat
    /\ Forall (fun row => Frame.cell_of row "Cell Type" = None) results.
Proof.
  destruct (scrape_geo Scenario.two_accessions_env Scenario.empty_world)
    as [[results | e] w'] eqn:E; [| vm_compute in E; discriminate E].
  pose proof (run_rows_share_one_schema _ _ _ _ _ E) as Hall.
  exists results. split; [reflexivity |]. split.
  - vm_compute in E. injection E as <- _. reflexivity.
  - eapply Forall_impl; [exact Hall |]. by intros row (_ & _ & _ & _ & H).
Defined.

End RowFacts.

(** ** What a flush of the Tabular Sink does to the rows it finds *)

Module FlushFacts.
Import World Sink Outcome.













End FlushFacts.
